(** * youtube_transcriptor.py: a shallow embedding and its properties

    The script downloads the audio of each video of a list, converts it to
    WAV with ffmpeg, transcribes it with Whisper, saves the transcript as a
    Word document and appends one row per video to a CSV log.  This file
    embeds the functions of [youtube_transcriptor.py] and proves the
    properties of the specification about them.

    Conventions of the embedding:
    - a Python [str] is a list of Unicode code points ([str := list N]);
    - a number of seconds is an int or a float ([number]); a float is a
      finite binary64 number, given by its value, and every operation on
      floats is rounded as IEEE 754 rounds it ([round64]), so that [//] and
      [%] are those of CPython's [float_floor_div] and [float_rem];
    - a function that may raise returns a [res]; a function that also reads
      or changes the disk runs in the state-and-exception monad [M], in which
      the state survives an exception;
    - the external programs and libraries (yt-dlp, ffmpeg, Whisper,
      python-docx when it takes a text and when it saves, the removal of a
      file) are the fields of a record of collaborators, over which the
      theorems quantify; each may fail with any exception;
    - the disk is a record of four stores (media files, documents, logs,
      input tables); the collaborators change the media files and the
      documents only, and appending to a log does not fail.  The logs and
      the tables are two views of the CSV files: the lines of a file, and
      what pandas read from it when the script started.  The script reads
      its table before it writes any line; what pandas would read from a
      file after lines were added to it is not modelled, and the properties
      of [registro] and [main] speak of the tables at the other paths only;
    - what the script prints is not modelled. *)

From Stdlib Require Import ZArith QArith Qround Qabs Qpower String Ascii DecimalString DecimalZ Lia.
From stdpp Require Import gmap list.

Set Default Proof Using "Type".

(** ** Python strings *)

Definition char := N.
Definition str := list char.

(** [lit "abc"] is the Python literal ['abc']. *)
Definition lit (s : string) : str := N_of_ascii <$> list_ascii_of_string s.
Arguments lit s%_string : simpl never.

(** [str.isspace] for one character: the code points CPython treats as
    whitespace. *)
Definition isspace (c : char) : bool :=
  ((9 <=? c) && (c <=? 13) || (28 <=? c) && (c <=? 32) || (c =? 133) || (c =? 160)
   || (c =? 5760) || (8192 <=? c) && (c <=? 8202) || (c =? 8232) || (c =? 8233)
   || (c =? 8239) || (c =? 8287) || (c =? 12288))%N.

Fixpoint lstrip (s : str) : str :=
  match s with
  | c :: r => if isspace c then lstrip r else s
  | [] => []
  end.

Definition rstrip (s : str) : str := reverse (lstrip (reverse s)).

(** [s.strip()] *)
Definition strip (s : str) : str := rstrip (lstrip s).

(** [s.endswith(suffix)] *)
Definition endswith (s suffix : str) : bool :=
  bool_decide (drop (length s - length suffix) s = suffix).

(** [s[lo:hi]] for [0 <= lo <= hi] *)
Definition slice (lo hi : nat) (s : str) : str := take (hi - lo) (drop lo s).

(** [str(n)] for a Python int. *)
Definition str_of_int (n : Z) : str := lit (NilZero.string_of_int (Z.to_int n)).

(** The format [{n:02d}] of an f-string: decimal, zero-filled to a width of
    two, the sign first. *)
Definition format_02d (n : Z) : str :=
  if (n <? 0)%Z then str_of_int n
  else if (n <? 10)%Z then lit "0" ++ str_of_int n
  else str_of_int n.

(** ** The title sanitizer

    [re.sub(pattern, '_', title)], where the pattern is the class of the nine
    characters [<], [>], [:], the double quote (code point 34), [/], the
    backslash, [|], [?] and [*]. *)

Definition reserved : list char := lit "<>:" ++ [34%N] ++ lit "/\|?*".

(** [re.sub] for a pattern that is one character class: every character of
    the class is a match, replaced by [repl]; the others are copied. *)
Fixpoint re_sub_class (cls : list char) (repl : str) (s : str) : str :=
  match s with
  | [] => []
  | c :: r =>
      (if bool_decide (c ∈ cls) then repl else [c]) ++ re_sub_class cls repl r
  end.

Definition safe_title (title : str) : str := re_sub_class reserved (lit "_") title.

(** ** Numbers

    A time in seconds is a Python int or a Python float.  The operations on
    ints are exact.  A float is a finite binary64 number, given here by its
    value (Whisper and yt-dlp give no infinity and no NaN), and each
    operation on floats gives the binary64 number nearest to the exact
    result, ties to even. *)

Local Open Scope Q_scope.

Inductive number := Int (n : Z) | Float (x : Q).

(** The integer part of a float, toward zero. *)
Definition trunc (x : Q) : Z := Z.quot (Qnum x) (Zpos (Qden x)).

(** The exponent of a value other than zero: [2 ^ e <= |x| < 2 ^ (e + 1)]. *)
Definition log2_floor (x : Q) : Z :=
  let d := (Z.log2 (Z.abs (Qnum x)) - Z.log2 (Zpos (Qden x)))%Z in
  if Qle_bool (2 ^ d) (Qabs x) then d else (d - 1)%Z.

(** The nearest integer, ties to even. *)
Definition round_half_even (x : Q) : Z :=
  let f := Qfloor x in
  match Qcompare (x - inject_Z f) (1 # 2) with
  | Lt => f
  | Gt => (f + 1)%Z
  | Eq => if Z.even f then f else (f + 1)%Z
  end.

(** The binary64 number nearest to [x]: 53 significant bits, the last of
    them of weight [2 ^ -1074] at least.  The operations of the script
    divide by 3600 or 60, add or subtract at most 3600, and otherwise stay
    below the magnitude of their argument, so none of them overflows. *)
Definition round64 (x : Q) : Q :=
  if Qeq_bool x 0 then 0
  else let e := Z.max (log2_floor x - 52) (-1074) in
       Qred (inject_Z (round_half_even (x / 2 ^ e)) * 2 ^ e).

Definition Qltb (x y : Q) : bool := negb (Qle_bool y x).

(** C's [fmod(x, y)]: exact, with the sign of [x]. *)
Definition fmod (x y : Q) : Q := x - y * inject_Z (trunc (x / y)).

(** [vx % wx] on floats, CPython's [float_rem]: the remainder of [fmod],
    moved by [wx] when its sign is not that of [wx]. *)
Definition float_rem (vx wx : Q) : Q :=
  let remainder := fmod vx wx in
  if Qeq_bool remainder 0 then 0
  else if negb (eqb (Qltb wx 0) (Qltb remainder 0)) then round64 (remainder + wx)
  else remainder.

(** [vx // wx] on floats, CPython's [float_floor_div]: the quotient of
    [vx - fmod(vx, wx)] by [wx], less one when the remainder was moved,
    snapped to the nearest integral value. *)
Definition float_floor_div (vx wx : Q) : Q :=
  let remainder := fmod vx wx in
  let div := round64 (round64 (vx - remainder) / wx) in
  let div := if negb (Qeq_bool remainder 0) && negb (eqb (Qltb wx 0) (Qltb remainder 0))
             then round64 (div - 1) else div in
  if Qeq_bool div 0 then 0
  else let floordiv := inject_Z (Qfloor div) in
       if Qltb (1 # 2) (round64 (div - floordiv)) then round64 (floordiv + 1)
       else floordiv.

(** [a // b] and [a % b] for an int [b], and [int(a)]: on ints the floor
    division and its remainder, on floats the operations above. *)
Definition floordiv (a : number) (b : Z) : number :=
  match a with
  | Int n => Int (n / b)
  | Float x => Float (float_floor_div x (inject_Z b))
  end.
Definition pymod (a : number) (b : Z) : number :=
  match a with
  | Int n => Int (n mod b)
  | Float x => Float (float_rem x (inject_Z b))
  end.
Definition int (a : number) : Z :=
  match a with Int n => n | Float x => trunc x end.

Local Close Scope Q_scope.

(** ** The timestamp formatter *)

Definition format_timestamp (seconds : number) : str :=
  let hours := int (floordiv seconds 3600) in
  let minutes := int (floordiv (pymod seconds 3600) 60) in
  let secs := int (pymod seconds 60) in
  if (0 <? hours)%Z
  then format_02d hours ++ lit ":" ++ format_02d minutes ++ lit ":" ++ format_02d secs
  else format_02d minutes ++ lit ":" ++ format_02d secs.

(** ** Exceptions and the monad of the script *)

Inductive exn_class :=
  | ValueError | FileNotFoundError | KeyError | IndexError | TypeError
  | AttributeError | OSError | DownloadError | CalledProcessError | RuntimeError.

(** An exception: its class and [str(e)]. *)
Record exn := Exn { exn_class_of : exn_class; exn_str : str }.

(** [isinstance(e, Exception)]: every class of [exn_class] derives from
    [Exception]; an interruption of the process is not an [exn]. *)
Definition is_Exception (e : exn) : bool := true.

(** [isinstance(e, OSError)] *)
Definition is_OSError (e : exn) : bool :=
  match exn_class_of e with OSError | FileNotFoundError => true | _ => false end.

Inductive res (A : Type) := Ok (a : A) | Raise (e : exn).
Arguments Ok {A} a.
Arguments Raise {A} e.

#[global] Instance res_ret : MRet res := fun A a => Ok a.
#[global] Instance res_bind : MBind res := fun A B f m =>
  match m with Ok a => f a | Raise e => Raise e end.

(** A computation over a state [S]: the state survives an exception, as the
    files and variables written before a [raise] do. *)
Definition M (S A : Type) : Type := S -> res A * S.

#[global] Instance M_ret {S} : MRet (M S) := fun A a s => (Ok a, s).
#[global] Instance M_bind {S} : MBind (M S) := fun A B f m s =>
  match m s with
  | (Ok a, s') => f a s'
  | (Raise e, s') => (Raise e, s')
  end.

Definition lift_res {S A} (r : res A) : M S A := fun s => (r, s).
Definition get {S} : M S S := fun s => (Ok s, s).
Definition modify {S} (f : S -> S) : M S unit := fun s => (Ok tt, f s).

(** [try: body / except C as e: handler e], where [catches] is the test
    [isinstance(e, C)]. *)
Definition try_except {S A} (body : M S A) (catches : exn -> bool)
    (handler : exn -> M S A) : M S A := fun s =>
  match body s with
  | (Ok a, s') => (Ok a, s')
  | (Raise e, s') => if catches e then handler e s' else (Raise e, s')
  end.

(** [try: body / finally: final]: [final] runs on both exits; an exception of
    [final] replaces the outcome of [body]. *)
Definition try_finally {S A} (body : M S A) (final : M S unit) : M S A := fun s =>
  match body s with
  | (r, s') =>
      match final s' with
      | (Ok _, s'') => (r, s'')
      | (Raise e, s'') => (Raise e, s'')
      end
  end.

(** [for x in l: body x] *)
Fixpoint for_each {S A} (l : list A) (body : A -> M S unit) : M S unit :=
  match l with
  | [] => mret tt
  | x :: r => body x ;; for_each r body
  end.

(** ** Data of the script *)

(** The Python values found in the metadata of a video; a float is given by
    its value. *)
Inductive pyval := PNone | PStr (s : str) | PInt (n : Z) | PFloat (x : Q).

(** The name of the type of a value, as error messages print it. *)
Definition type_name (v : pyval) : str :=
  match v with
  | PNone => lit "NoneType" | PStr _ => lit "str"
  | PInt _ => lit "int" | PFloat _ => lit "float"
  end.

(** The dictionary [info] that yt-dlp returns, by the keys the script reads;
    [None] is an absent key.  An entry of [requested_downloads] is given by
    its ['filepath']. *)
Record Info := {
  info_title : option pyval;
  info_requested_downloads : option (list str);
  info_upload_date : option pyval;
  info_duration : option pyval;
  info_view_count : option pyval;
  info_uploader : option pyval }.

(** One segment of a Whisper result, whose times are floats, and the result:
    ['text'] and, when the key is present, ['segments']. *)
Record Segment := { seg_start : Q; seg_end : Q; seg_text : str }.
Record Result := { res_text : str; res_segments : option (list Segment) }.

(** A python-docx document: a list of headings and paragraphs; a paragraph is
    a list of runs. *)
Record run := Run { run_text : str; run_bold : bool }.
Inductive block := Heading (text : str) (level : nat) | Paragraph (runs : list run).
Definition document := list block.

(** One row of the log, by the columns of the data frame of [registro]. *)
Record row := {
  row_title : pyval;
  row_upload_date : pyval;
  row_duration : pyval;
  row_view_count : pyval;
  row_channel : pyval;
  row_URL : str;
  row_status : str }.

Inductive csv_line := Header (names : list str) | Row (r : row).

(** A cell of a column read by [pd.read_csv]: a missing value, a text, or a
    number (a column whose entries are all numeric). *)
Inductive cell := NaN | Text (s : str) | Number (x : Q).

(** The disk, by what each function of the script does with it: the media
    files that exist, the saved documents, the CSV logs, and the CSV tables
    that [pd.read_csv] reads (column name to cells).  A path is present in a
    store exactly when [os.path.exists] holds for it there. *)
Record world := World {
  files : gset str;
  docs : gmap str document;
  logs : gmap str (list csv_line);
  tables : gmap str (gmap str (list cell)) }.

(** The external collaborators.  Each sees the world; the download and ffmpeg
    leave a new set of files; a failure is any exception. *)
Record collaborators := {
  (** [ydl.extract_info(url, download=True)] *)
  extract_info : str -> world -> res Info * gset str;
  (** [subprocess.run(comando, check=True, capture_output=True)] *)
  subprocess_run : list str -> world -> res unit * gset str;
  (** [model.transcribe(output_file, language=..., fp16=False)] *)
  transcribe : str -> world -> res Result;
  (** [run.text = text], inside [add_run], [add_paragraph] and
      [add_heading]: the exception python-docx raises when it refuses the
      text (lxml takes no text that XML cannot hold, a control character for
      one), if it does *)
  run_error : str -> option exn;
  (** [doc.save(documento)]: the exception it raises, if it fails *)
  save_error : str -> world -> option exn;
  (** [os.remove(archivo)]: the message of the [OSError], if it fails *)
  remove_error : str -> world -> option str }.

Definition set_files (fs : gset str) (w : world) : world :=
  World fs (docs w) (logs w) (tables w).
Definition set_docs (d : gmap str document) (w : world) : world :=
  World (files w) d (logs w) (tables w).
Definition set_logs (l : gmap str (list csv_line)) (w : world) : world :=
  World (files w) (docs w) l (tables w).

(** ** [extract_url] *)

Definition msg_not_csv : str :=
  lit "El archivo proporcionado no es un archivo CSV v" ++ [225%N] ++ lit "lido.".
Definition msg_not_found (csv : str) : str :=
  lit "No se encontr" ++ [243%N] ++ lit " el archivo: " ++ csv.
Definition msg_no_column : str := lit "El archivo CSV no contiene una columna 'url'.".
Definition msg_no_urls : str :=
  lit "No se encontraron URLs v" ++ [225%N] ++ lit "lidas en el CSV.".

(** The loop over [df['url'].tolist()].  A missing value fails [pd.notna];
    a text is kept, stripped, when its stripped form is not empty; for a
    number [str(link).strip()] is never empty and [link.strip()] raises. *)
Fixpoint collect_urls (links : list cell) (urls : list str) : res (list str) :=
  match links with
  | [] => Ok urls
  | NaN :: rest => collect_urls rest urls
  | Text link :: rest =>
      if bool_decide (strip link ≠ []) then collect_urls rest (urls ++ [strip link])
      else collect_urls rest urls
  | Number _ :: _ =>
      Raise (Exn AttributeError (lit "'int' object has no attribute 'strip'"))
  end.

Definition extract_url (csv : str) : M world (list str) := fun w =>
  if negb (endswith csv (lit ".csv")) then (Raise (Exn ValueError msg_not_csv), w)
  else match tables w !! csv with
  | None => (Raise (Exn FileNotFoundError (msg_not_found csv)), w)
  | Some df =>
      match df !! lit "url" with
      | None => (Raise (Exn ValueError msg_no_column), w)
      | Some column =>
          match collect_urls column [] with
          | Raise e => (Raise e, w)
          | Ok [] => (Raise (Exn ValueError msg_no_urls), w)
          | Ok urls => (Ok urls, w)
          end
      end
  end.

(** ** The stages *)

(** [info['title']] *)
Definition getitem_title (info : Info) : res pyval :=
  match info_title info with
  | Some v => Ok v
  | None => Raise (Exn KeyError (lit "'title'"))
  end.

(** [title[:50]], of the progress message *)
Definition first_50 (title : pyval) : res str :=
  match title with
  | PStr s => Ok (take 50 s)
  | v => Raise (Exn TypeError (lit "'" ++ type_name v ++ lit "' object is not subscriptable"))
  end.

(** [re.sub(pattern, '_', title)] on a value *)
Definition re_sub_title (title : pyval) : res str :=
  match title with
  | PStr s => Ok (safe_title s)
  | _ => Raise (Exn TypeError (lit "expected string or bytes-like object"))
  end.

(** [info['requested_downloads'][0]['filepath']] *)
Definition downloaded_filepath (info : Info) : res str :=
  match info_requested_downloads info with
  | None => Raise (Exn KeyError (lit "'requested_downloads'"))
  | Some [] => Raise (Exn IndexError (lit "list index out of range"))
  | Some (filepath :: _) => Ok filepath
  end.

Definition comando (input_file output_file : str) : list str :=
  [lit "ffmpeg"; lit "-y"; lit "-i"; input_file; lit "-ac"; lit "1"; lit "-ar"; lit "16000";
   lit "-c:a"; lit "pcm_s16le"; lit "-af"; lit "loudnorm"; output_file].

(** The heading of every document: Transcripcion de Audio, with its accent. *)
Definition heading_text : str := lit "Transcripci" ++ [243%N] ++ lit "n de Audio".

Section Script.
Variable E : collaborators.

Definition download_video (url : str) : M world Info := fun w =>
  match extract_info E url w with
  | (r, fs) => (r, set_files fs w)
  end.

Definition run_checked (cmd : list str) : M world unit := fun w =>
  match subprocess_run E cmd w with
  | (r, fs) => (r, set_files fs w)
  end.

Definition convert_to_wav (info : Info) : M world (str * str) :=
  input_file ← lift_res (downloaded_filepath info);
  title ← lift_res (getitem_title info);
  safe_title ← lift_res (re_sub_title title);
  let output_file := safe_title ++ lit ".wav" in
  run_checked (comando input_file output_file);;
  mret (input_file, output_file).

(** [paragraph.add_run(text)]: python-docx sets the text of the run, and
    may refuse it, only when the text is not empty. *)
Definition add_run (text : str) (bold : bool) : res run :=
  if bool_decide (text = []) then Ok (Run text bold)
  else match run_error E text with
       | Some e => Raise e
       | None => Ok (Run text bold)
       end.

(** [doc.add_heading(text, level)]: a paragraph of one run, with the style
    of the level. *)
Definition add_heading (text : str) (level : nat) : res block :=
  _ ← add_run text false;
  Ok (Heading text level).

(** [doc.add_paragraph(text)]: a run is added only for a text that is not
    empty. *)
Definition add_paragraph (text : str) : res block :=
  if bool_decide (text = []) then Ok (Paragraph [])
  else r ← add_run text false; Ok (Paragraph [r]).

(** The body of the loop over the segments; 8594 is the arrow. *)
Definition add_segment (segment : Segment) : res block :=
  let start_time := format_timestamp (Float (seg_start segment)) in
  let end_time := format_timestamp (Float (seg_end segment)) in
  stamp ← add_run (lit "[" ++ start_time ++ lit " " ++ [8594%N] ++ lit " "
                     ++ end_time ++ lit "] ") true;
  text ← add_run (strip (seg_text segment)) false;
  Ok (Paragraph [stamp; text]).

Fixpoint add_segments (segments : list Segment) : res (list block) :=
  match segments with
  | [] => Ok []
  | segment :: rest =>
      p ← add_segment segment;
      ps ← add_segments rest;
      Ok (p :: ps)
  end.

(** The document that [word] builds before it saves it. *)
Definition build_document (result : Result) : res document :=
  heading ← add_heading heading_text 0;
  body ← match res_segments result with
         | Some segments => add_segments segments
         | None => p ← add_paragraph (res_text result); Ok [p]
         end;
  Ok (heading :: body).

Definition word (result : Result) (documento : str) : M world unit := fun w =>
  match build_document result with
  | Raise e => (Raise e, w)
  | Ok doc =>
      match save_error E documento w with
      | Some e => (Raise e, w)
      | None => (Ok tt, set_docs (<[documento := doc]> (docs w)) w)
      end
  end.

Definition os_remove (archivo : str) : M world unit := fun w =>
  match remove_error E archivo w with
  | Some msg => (Raise (Exn OSError msg), w)
  | None => (Ok tt, set_files (files w ∖ {[archivo]}) w)
  end.

(** The body of the loop of [clean]: a path that is [None] or empty, or
    that does not exist, is skipped; an [OSError] of the removal is caught
    and reported. *)
Definition clean_step (archivo : option str) : M world unit :=
  match archivo with
  | Some path =>
      w ← get;
      if bool_decide (path ≠ []) && bool_decide (path ∈ files w)
      then try_except (os_remove path) is_OSError (fun _ => mret tt)
      else mret tt
  | None => mret tt
  end.

Definition clean (input_file output_file : option str) : M world unit :=
  for_each [input_file; output_file] clean_step.
End Script.

(** ** [registro] *)

Definition columns : list str :=
  [lit "title"; lit "upload_date"; lit "duration"; lit "view_count"; lit "channel";
   lit "URL"; lit "status"].

Definition NA : pyval := PStr (lit "N/A").

(** [info.get(key, 'N/A')] *)
Definition get_or_NA (value : option pyval) : pyval := default NA value.

(** The date of the row: a text other than ['N/A'] whose [len] is 8 gets two
    dashes; [len] of a value that is not a text raises. *)
Definition format_upload_date (upload_date : pyval) : res pyval :=
  match upload_date with
  | PStr s =>
      if bool_decide (s ≠ lit "N/A") && bool_decide (length s = 8)
      then Ok (PStr (slice 0 4 s ++ lit "-" ++ slice 4 6 s ++ lit "-" ++ slice 6 8 s))
      else Ok (PStr s)
  | v => Raise (Exn TypeError (lit "object of type '" ++ type_name v ++ lit "' has no len()"))
  end.

Definition hhmmss (duration : number) : str :=
  let hours := int (floordiv duration 3600) in
  let minutes := int (floordiv (pymod duration 3600) 60) in
  let seconds := int (pymod duration 60) in
  format_02d hours ++ lit ":" ++ format_02d minutes ++ lit ":" ++ format_02d seconds.

(** The duration of the row: formatted when it is an int or a float. *)
Definition format_duration (duration : pyval) : pyval :=
  match duration with
  | PInt n => PStr (hhmmss (Int n))
  | PFloat x => PStr (hhmmss (Float x))
  | v => v
  end.

(** The dictionary [row] of [registro]; [info] is the metadata or, on the
    failure path, the exception. *)
Definition registro_row (info : Info + exn) (url : str) : res row :=
  match info with
  | inr e =>
      Ok {| row_title := NA; row_upload_date := NA; row_duration := NA;
            row_view_count := NA; row_channel := NA; row_URL := url;
            row_status := lit "Error: " ++ exn_str e |}
  | inl info =>
      upload_date ← format_upload_date (get_or_NA (info_upload_date info));
      let duration := format_duration (get_or_NA (info_duration info)) in
      Ok {| row_title := get_or_NA (info_title info);
            row_upload_date := upload_date;
            row_duration := duration;
            row_view_count := get_or_NA (info_view_count info);
            row_channel := get_or_NA (info_uploader info);
            row_URL := url;
            row_status := lit "Success" |}
  end.

(** [df.to_csv(output_csv, mode='a', header=write_header, index=False)] for
    the one-row frame: the lines are added after those the file has.  What
    pandas read from the file before is kept as it was read: the script does
    not read the file again. *)
Definition to_csv (r : row) (output_csv : str) (header : bool) : M world unit :=
  modify (fun w =>
    set_logs (<[output_csv := default [] (logs w !! output_csv)
                               ++ (if header then [Header columns] else []) ++ [Row r]]>
                (logs w)) w).

Definition registro (info : Info + exn) (url output_csv : str) : M world unit :=
  r ← lift_res (registro_row info url);
  w ← get;
  let write_header := bool_decide (logs w !! output_csv = None) in
  to_csv r output_csv write_header.

(** ** [main] *)

(** The local variables of [main] next to the disk. *)
Record frame := Frame {
  disk : world;
  input_file : option str;
  output_file : option str;
  exitosos : nat;
  fallidos : nat }.

Definition in_world {A} (m : M world A) : M frame A := fun f =>
  match m (disk f) with
  | (r, w) => (r, Frame w (input_file f) (output_file f) (exitosos f) (fallidos f))
  end.

Definition set_artifacts (i o : option str) : M frame unit :=
  modify (fun f => Frame (disk f) i o (exitosos f) (fallidos f)).
Definition count_exitoso : M frame unit :=
  modify (fun f => Frame (disk f) (input_file f) (output_file f) (S (exitosos f)) (fallidos f)).
Definition count_fallido : M frame unit :=
  modify (fun f => Frame (disk f) (input_file f) (output_file f) (exitosos f) (S (fallidos f))).

Definition log_file : str := lit "transcriptions_log.csv".

Section Main.
Variable E : collaborators.

(** The [try] block of one iteration. *)
Definition item_body (url : str) : M frame unit :=
  info ← in_world (download_video E url);
  title ← lift_res (getitem_title info);
  _ ← lift_res (first_50 title);
  '(i, o) ← in_world (convert_to_wav E info);
  set_artifacts (Some i) (Some o);;
  result ← in_world (fun w => (transcribe E o w, w));
  title ← lift_res (getitem_title info);
  safe_title ← lift_res (re_sub_title title);
  in_world (word E result (safe_title ++ lit ".docx"));;
  in_world (registro (inl info) url log_file);;
  count_exitoso.

(** One iteration of the loop of [main]: the variables are reset, then
    [try] / [except Exception] / [finally]. *)
Definition process_item (url : str) : M frame unit :=
  set_artifacts None None;;
  try_finally
    (try_except (item_body url) is_Exception
       (fun e => in_world (registro (inr e) url log_file);; count_fallido))
    (f ← get; in_world (clean E (input_file f) (output_file f))).

Definition process_all (videos : list str) : M frame unit :=
  for_each videos process_item.

(** [main]: [argv] is [sys.argv], [typed] the line that [input] returns.
    The result is the pair of counters of the final summary.  The choice of
    the device and the loading of the Whisper model come before the loop and
    touch nothing the loop reads; the model is part of [transcribe]. *)
Definition main (argv : list str) (typed : str) : M world (nat * nat) := fun w =>
  match (match argv with
         | [_; csv] => extract_url csv w
         | _ => (Ok [typed], w)
         end) with
  | (Raise e, w) => (Raise e, w)
  | (Ok videos, w) =>
      match process_all videos (Frame w None None 0 0) with
      | (Ok _, f) => (Ok (exitosos f, fallidos f), disk f)
      | (Raise e, f) => (Raise e, disk f)
      end
  end.
End Main.

(** ** Notions used in the statements *)

(** The character of a decimal digit, and the two digits of a number below
    one hundred. *)
Definition digit (d : Z) : char := Z.to_N (48 + d).
Definition two_digits (n : Z) : str := [digit (n / 10); digit (n mod 10)].

(** The errors of the input that the specification calls ValidationError:
    the [ValueError] and the [FileNotFoundError] of [extract_url]. *)
Definition is_ValidationError (e : exn) : bool :=
  match exn_class_of e with ValueError | FileNotFoundError => true | _ => false end.

(** The entries of a column as texts, trimmed, without the blank ones, in the
    order of the rows. *)
Definition cell_text (c : cell) : option str :=
  match c with Text s => Some s | _ => None end.
Definition trimmed_urls (column : list cell) : list str :=
  filter (λ s, s ≠ []) (strip <$> omap cell_text column).

(** A column of texts and missing values, as [pd.read_csv] reads a column of
    URLs. *)
Definition is_textual (c : cell) : bool :=
  match c with Number _ => false | _ => true end.

(** A stage of the pipeline fails with [e] for the item [url] on the disk
    [w]: the download; or ffmpeg, after the download; or the transcription,
    after the conversion; or the document, after the transcription, when
    python-docx refuses a text or when the saving fails.  The earlier stages
    have succeeded, on metadata that has a title and a downloaded file. *)
Inductive stage_failure (E : collaborators) (url : str) (w : world) (e : exn) : Prop :=
  | acquire_fails fs :
      extract_info E url w = (Raise e, fs) →
      stage_failure E url w e
  | normalize_fails info title path paths fs fs' :
      extract_info E url w = (Ok info, fs) →
      info_title info = Some (PStr title) →
      info_requested_downloads info = Some (path :: paths) →
      subprocess_run E (comando path (safe_title title ++ lit ".wav")) (set_files fs w)
        = (Raise e, fs') →
      stage_failure E url w e
  | transcribe_fails info title path paths fs fs' :
      extract_info E url w = (Ok info, fs) →
      info_title info = Some (PStr title) →
      info_requested_downloads info = Some (path :: paths) →
      subprocess_run E (comando path (safe_title title ++ lit ".wav")) (set_files fs w)
        = (Ok tt, fs') →
      transcribe E (safe_title title ++ lit ".wav") (set_files fs' (set_files fs w)) = Raise e →
      stage_failure E url w e
  | render_refuses info title path paths result fs fs' :
      extract_info E url w = (Ok info, fs) →
      info_title info = Some (PStr title) →
      info_requested_downloads info = Some (path :: paths) →
      subprocess_run E (comando path (safe_title title ++ lit ".wav")) (set_files fs w)
        = (Ok tt, fs') →
      transcribe E (safe_title title ++ lit ".wav") (set_files fs' (set_files fs w))
        = Ok result →
      build_document E result = Raise e →
      stage_failure E url w e
  | render_fails info title path paths result doc fs fs' :
      extract_info E url w = (Ok info, fs) →
      info_title info = Some (PStr title) →
      info_requested_downloads info = Some (path :: paths) →
      subprocess_run E (comando path (safe_title title ++ lit ".wav")) (set_files fs w)
        = (Ok tt, fs') →
      transcribe E (safe_title title ++ lit ".wav") (set_files fs' (set_files fs w))
        = Ok result →
      build_document E result = Ok doc →
      save_error E (safe_title title ++ lit ".docx") (set_files fs' (set_files fs w)) = Some e →
      stage_failure E url w e.

(** The paragraphs of a document, and the text of a paragraph. *)
Definition paragraphs (doc : document) : list (list run) :=
  omap (λ b, match b with Paragraph runs => Some runs | Heading _ _ => None end) doc.
Definition paragraph_text (runs : list run) : str := concat (run_text <$> runs).

(** The text of the paragraph of a segment: the two timestamps in brackets
    with an arrow between them, a space, and the trimmed text. *)
Definition segment_line (segment : Segment) : str :=
  lit "[" ++ format_timestamp (Float (seg_start segment)) ++ lit " " ++ [8594%N] ++ lit " "
    ++ format_timestamp (Float (seg_end segment)) ++ lit "] " ++ strip (seg_text segment).

(** The bold prefix of the paragraph of a segment. *)
Definition timestamp_run (segment : Segment) : run :=
  Run (lit "[" ++ format_timestamp (Float (seg_start segment)) ++ lit " " ++ [8594%N]
         ++ lit " " ++ format_timestamp (Float (seg_end segment)) ++ lit "] ") true.

(** The document of a result, as [word] builds it when python-docx refuses
    none of its texts: the heading, then one paragraph for each segment or,
    without the key of the segments, one paragraph for the text. *)
Definition word_document (result : Result) : document :=
  Heading heading_text 0 ::
  match res_segments result with
  | Some segments =>
      (λ segment, Paragraph [timestamp_run segment; Run (strip (seg_text segment)) false])
        <$> segments
  | None => [Paragraph (if bool_decide (res_text result = []) then []
                        else [Run (res_text result) false])]
  end.

(** The texts that [word] hands to python-docx for a result, in order. *)
Definition texts (result : Result) : list str :=
  heading_text ::
  match res_segments result with
  | Some segments => segments ≫= λ segment, [run_text (timestamp_run segment);
                                              strip (seg_text segment)]
  | None => [res_text result]
  end.

(** A number of seconds as a rational, its whole seconds, and the numbers on
    which the arithmetic of the script is exact: the ints, and the floats
    below [2 ^ 53]. *)
Definition value (seconds : number) : Q :=
  match seconds with Int n => inject_Z n | Float x => x end.
Definition whole (seconds : number) : Z := Qfloor (value seconds).
Definition exact (seconds : number) : Prop :=
  match seconds with Int _ => True | Float x => (x < 2 ^ 53)%Q end.

(** The lines a log holds before a row is added to it: those of the file, or
    the header when there is no file yet. *)
Definition lines_before (output_csv : str) (w : world) : list csv_line :=
  match logs w !! output_csv with
  | Some old => old
  | None => [Header columns]
  end.

(** The number of header lines of a log. *)
Definition is_header (l : csv_line) : bool :=
  match l with Header _ => true | Row _ => false end.
Definition headers (lines : list csv_line) : nat :=
  length (List.filter is_header lines).

(** A sequence of calls of [registro] on one log, each with its own
    arguments; a call that raises leaves the next ones to run, as in [main]. *)
Fixpoint registro_calls (calls : list ((Info + exn) * str)) (output_csv : str)
    (w : world) : world :=
  match calls with
  | [] => w
  | (info, url) :: rest => registro_calls rest output_csv (registro info url output_csv w).2
  end.

(** The rows that a sequence of calls writes: one for each call that builds
    its row without raising. *)
Definition rows_written (calls : list ((Info + exn) * str)) : list csv_line :=
  omap (λ c, match registro_row c.1 c.2 with Ok r => Some (Row r) | Raise _ => None end) calls.

(** ** Notions used in the proofs *)

(** The outcome and the final state of [m] from [s] satisfy [Q]. *)
Definition wp {S A} (m : M S A) (Q : res A → S → Prop) (s : S) : Prop :=
  Q (m s).1 (m s).2.

(** A computation on the disk that leaves the logs and the tables alone. *)
Definition keeps_logs {A} (m : M world A) : Prop :=
  ∀ w, logs (m w).2 = logs w ∧ tables (m w).2 = tables w.

(** Between two frames only the media files, the documents and the two
    variables of the artifacts may differ. *)
Definition unchanged_but_media (f f' : frame) : Prop :=
  logs (disk f') = logs (disk f) ∧ tables (disk f') = tables (disk f)
  ∧ exitosos f' = exitosos f ∧ fallidos f' = fallidos f.

(** The rows of a log, without its header. *)
Definition data_rows (output_csv : str) (w : world) : list row :=
  omap (λ l, match l with Row r => Some r | Header _ => None end)
       (default [] (logs w !! output_csv)).

(** ** Sample inputs *)

Definition empty_disk : world := World ∅ ∅ ∅ ∅.

Definition sample_info (upload_date : option pyval) : Info :=
  {| info_title := Some (PStr (lit "v"));
     info_requested_downloads := Some [lit "v.webm"];
     info_upload_date := upload_date;
     info_duration := Some (PInt 125);
     info_view_count := Some (PInt 7);
     info_uploader := Some (PStr (lit "canal")) |}.

Definition sample_result (segments : option (list Segment)) : Result :=
  {| res_text := lit "hola mundo"; res_segments := segments |}.

(** Collaborators that all succeed: the download leaves v.webm, ffmpeg leaves
    the file named last in its command, every removal works. *)
Definition all_succeed : collaborators :=
  {| extract_info := λ _ w, (Ok (sample_info (Some (PStr (lit "20081010")))),
                              files w ∪ {[lit "v.webm"]});
     subprocess_run := λ cmd w, (Ok tt, files w ∪ list_to_set (option_list (last cmd)));
     transcribe := λ _ _,
       Ok (sample_result (Some [{| seg_start := 0; seg_end := 2.5; seg_text := lit " hola " |}]));
     run_error := λ _, None;
     save_error := λ _ _, None;
     remove_error := λ _ _, None |}.

(** The same, but ffmpeg exits with an error and writes nothing. *)
Definition ffmpeg_fails : collaborators :=
  {| extract_info := extract_info all_succeed;
     subprocess_run := λ _ w,
       (Raise (Exn CalledProcessError (lit "Command returned non-zero exit status 1.")),
        files w);
     transcribe := transcribe all_succeed;
     run_error := run_error all_succeed;
     save_error := save_error all_succeed;
     remove_error := remove_error all_succeed |}.

(** A table with a url column of four rows: a missing value, a blank text,
    and two URLs with spaces around them. *)
Definition sample_table : gmap str (list cell) :=
  {[ lit "url" := [NaN; Text (lit "   "); Text (lit " https://a "); Text (lit "https://b")] ]}.
Definition disk_with_table : world :=
  World ∅ ∅ ∅ {[ lit "videos.csv" := sample_table ]}.
(** ** Notions used in the further properties *)

(** Two characters that the sanitizer does not tell apart: the same
    character, or two characters among the reserved ones and the underscore. *)
Definition confusable (c d : char) : Prop :=
  c = d ∨ (c ∈ 95%N :: reserved ∧ d ∈ 95%N :: reserved).

(** A value on which [len] works: in the metadata, a text. *)
Definition has_len (v : pyval) : bool :=
  match v with PStr _ => true | _ => false end.

(** The upload date that [registro] cannot format: the key is present and
    its value is not a text. *)
Definition date_without_len (info : Info + exn) : bool :=
  match info with
  | inl i => match info_upload_date i with Some v => negb (has_len v) | None => false end
  | inr _ => false
  end.

(** The number of rows with the status Success. *)
Definition successes (rows : list row) : nat :=
  length (filter (λ r, row_status r = lit "Success") rows).

(** The list of videos that [main] resolves from its arguments. *)
Definition resolved (argv : list str) (typed : str) (w : world) : res (list str) :=
  match argv with
  | [_; csv] => (extract_url csv w).1
  | _ => Ok [typed]
  end.

(** The stages succeed, for a video whose metadata has [None] as upload
    date. *)
Definition undated_video : collaborators :=
  {| extract_info := λ _ w, (Ok (sample_info (Some PNone)), files w ∪ {[lit "v.webm"]});
     subprocess_run := subprocess_run all_succeed;
     transcribe := transcribe all_succeed;
     run_error := run_error all_succeed;
     save_error := save_error all_succeed;
     remove_error := remove_error all_succeed |}.

(** Two states of [main] that differ in the counters only, and a computation
    that does not look at the counters: on two such states it gives the same
    result, leaves two such states, and moves the counters by the same
    amounts. *)
Definition same_store (f g : frame) : Prop :=
  disk f = disk g ∧ input_file f = input_file g ∧ output_file f = output_file g.

Definition blind {A} (m : M frame A) : Prop :=
  ∀ f g, same_store f g →
    (m f).1 = (m g).1 ∧ same_store (m f).2 (m g).2 ∧
    exitosos (m f).2 + exitosos g = exitosos (m g).2 + exitosos f ∧
    fallidos (m f).2 + fallidos g = fallidos (m g).2 + fallidos f.

(** The number that a decimal numeral denotes, read by the Standard
    Library's parser; it is used to tell the hours of two timestamps apart. *)
Definition numeral_value (s : str) : option Z :=
  Z.of_int <$> NilZero.int_of_string (string_of_list_ascii (ascii_of_N <$> s)).

(** * Properties *)

(** ** Sanity checks of the embedding *)

Example reserved_has_nine_characters : length reserved = 9.
Proof. reflexivity. Qed.
Example format_timestamp_zero : format_timestamp (Float 0) = lit "00:00".
Proof. vm_compute. reflexivity. Qed.
Example format_timestamp_125 : format_timestamp (Int 125) = lit "02:05".
Proof. vm_compute. reflexivity. Qed.
Example format_timestamp_truncates : format_timestamp (Float 3725.75) = lit "01:02:05".
Proof. vm_compute. reflexivity. Qed.
Example round64_one_tenth : round64 0.1 = (3602879701896397 # 36028797018963968)%Q.
Proof. vm_compute. reflexivity. Qed.
Example float_rem_just_below_zero : float_rem (- (1 # 2 ^ 70)) 3600 = 3600%Q.
Proof. vm_compute. reflexivity. Qed.
Example float_floor_div_rounds :
  float_floor_div (inject_Z (10 ^ 20)) 3600 = inject_Z 27777777777777776.
Proof. vm_compute. reflexivity. Qed.
Example safe_title_example : safe_title (lit "Title: A/B?") = lit "Title_ A_B_".
Proof. vm_compute. reflexivity. Qed.
Example strip_example : strip (lit "  a b  ") = lit "a b".
Proof. vm_compute. reflexivity. Qed.
Example format_02d_examples : format_02d 123 = lit "123" /\ format_02d (-1) = lit "-1" /\ format_02d 7 = lit "07".
Proof. vm_compute. auto. Qed.
Example endswith_examples : endswith (lit "a.csv") (lit ".csv") = true /\ endswith (lit "csv") (lit ".csv") = false.
Proof. vm_compute. auto. Qed.

(** ** The title sanitizer *)

(** Replacing by a one-character string is a map over the characters. *)
Lemma re_sub_class_char (cls : list char) (u : char) (s : str) :
  re_sub_class cls [u] s = (λ c, if bool_decide (c ∈ cls) then u else c) <$> s.
Proof.
  induction s as [|c r IH]; [done|]. simpl. rewrite IH. by case_bool_decide.
Qed.

Lemma underscore_not_reserved : 95%N ∉ reserved.
Proof. apply (bool_decide_eq_false_1 _). by vm_compute. Qed.

(** C6. The sanitizer replaces each of the nine reserved characters by an
    underscore (code point 95) and leaves every other character as it is,
    position by position; no reserved character is left; sanitizing twice is
    sanitizing once; and the title [Title: A/B?] becomes [Title_ A_B_]. *)
Theorem safe_title_replaces_reserved (title : str) :
  reserved = [60; 62; 58; 34; 47; 92; 124; 63; 42]%N ∧
  length (safe_title title) = length title ∧
  (∀ i : nat, safe_title title !! i
     = (λ c, if bool_decide (c ∈ reserved) then 95%N else c) <$> title !! i) ∧
  Forall (λ c, c ∉ reserved) (safe_title title) ∧
  safe_title (safe_title title) = safe_title title ∧
  safe_title (lit "Title: A/B?") = lit "Title_ A_B_".
Proof.
  unfold safe_title. change (lit "_") with [95%N]. rewrite !re_sub_class_char.
  split; [done|]. split; [by rewrite length_fmap|].
  split; [intros i; apply list_lookup_fmap|].
  assert (Hclean : Forall (λ c, c ∉ reserved)
            ((λ c, if bool_decide (c ∈ reserved) then 95%N else c) <$> title)).
  { apply Forall_fmap, Forall_forall. intros c _. simpl.
    case_bool_decide; [apply underscore_not_reserved | done]. }
  split; [done|]. split; [|by vm_compute].
  rewrite <- list_fmap_compose. apply list_fmap_ext. intros i c _. simpl.
  destruct (bool_decide (c ∈ reserved)) eqn:Hc.
  - by rewrite bool_decide_eq_false_2 by apply underscore_not_reserved.
  - by rewrite Hc.
Qed.

(** ** The timestamp formatter *)

Local Open Scope Q_scope.

Lemma Qred_inject_Z (n : Z) : Qred (inject_Z n) = inject_Z n.
Proof.
  unfold Qred, inject_Z.
  pose proof (Z.ggcd_gcd n 1) as Hg. pose proof (Z.ggcd_correct_divisors n 1) as Hd.
  destruct (Z.ggcd n 1) as [g [a b]]. simpl in *.
  rewrite Z.gcd_1_r in Hg. subst g. destruct Hd as [-> Hb].
  assert (b = 1%Z) as -> by lia. f_equal. lia.
Qed.

Lemma trunc_floor (x : Q) : (0 <= Qfloor x)%Z -> trunc x = Qfloor x.
Proof.
  destruct x as [a b]; unfold trunc, Qfloor; simpl. intros H.
  assert (0 <= a)%Z.
  { destruct (Z.lt_ge_cases a 0) as [Hneg|]; [|done].
    pose proof (Z.div_lt_upper_bound a (Z.pos b) 0 ltac:(lia) ltac:(lia)). lia. }
  apply Z.quot_div_nonneg; lia.
Qed.

Lemma Qfloor_nonneg (x : Q) : 0 <= x -> (0 <= Qfloor x)%Z.
Proof. intros H. change 0%Z with (Qfloor 0). by apply Qfloor_resp_le. Qed.

Lemma Qfloor_div_pos (x : Q) (n : positive) :
  Qfloor (x / inject_Z (Z.pos n)) = (Qfloor x / Z.pos n)%Z.
Proof.
  destruct x as [a b]. unfold Qfloor, Qdiv, Qmult, Qinv, inject_Z; simpl.
  rewrite Z.mul_1_r, Pos2Z.inj_mul, Z.div_div by lia. done.
Qed.

(** The magnitude of a number below [2 ^ 53] has an exponent of at most 52. *)
Lemma log2_floor_below (x : Q) : Qabs x < 2 ^ 53 -> (log2_floor x <= 52)%Z.
Proof.
  intros Hx. unfold log2_floor.
  set (d := (Z.log2 (Z.abs (Qnum x)) - Z.log2 (Z.pos (Qden x)))%Z).
  destruct (Qle_bool (2 ^ d) (Qabs x)) eqn:Hd.
  - apply Qle_bool_iff in Hd.
    assert (d < 53)%Z; [|lia].
    apply (Qpower_lt_compat_l_inv 2); [|done]. by eapply Qle_lt_trans.
  - assert (d <= 53)%Z; [|lia]. subst d. clear Hd.
    assert (Hpow : 2 ^ 53 == inject_Z (2 ^ 53)) by (by rewrite Zpower_Qpower).
    rewrite Hpow in Hx. destruct x as [a b].
    unfold Qabs, Qlt, inject_Z in Hx. cbn [Qnum Qden] in Hx |- *.
    rewrite Z.mul_1_r in Hx.
    destruct (Z.eq_dec a 0%Z) as [->|Ha].
    { pose proof (Z.log2_nonneg (Z.pos b)). change (Z.log2 (Z.abs 0)) with 0%Z. lia. }
    assert (Hlog : (Z.log2 (Z.abs a) <= Z.log2 (Z.pos b * 2 ^ 53))%Z)
      by (apply Z.log2_le_mono; lia).
    rewrite Z.log2_mul_pow2 in Hlog by lia. lia.
Qed.

Lemma round_half_even_integer (x : Q) (n : Z) : x == inject_Z n -> round_half_even x = n.
Proof.
  intros Hx. unfold round_half_even.
  rewrite (Qfloor_comp _ _ Hx), Qfloor_Z.
  assert (Hzero : x - inject_Z n == 0) by (rewrite Hx; ring).
  rewrite (Qcompare_comp _ _ Hzero _ _ (Qeq_refl _)). done.
Qed.

(** Rounding leaves an integer below [2 ^ 53] as it is. *)
Lemma round64_integer (x : Q) (n : Z) :
  x == inject_Z n -> (Z.abs n < 2 ^ 53)%Z -> round64 x = inject_Z n.
Proof.
  intros Hx Hn. unfold round64.
  destruct (Qeq_bool x 0) eqn:Hzero.
  { apply Qeq_bool_eq in Hzero. rewrite Hx in Hzero.
    assert (n = 0%Z) as ->; [|done].
    unfold Qeq, inject_Z in Hzero. cbn [Qnum Qden] in Hzero. lia. }
  set (e := Z.max (log2_floor x - 52) (-1074)).
  assert (He : (e <= 0)%Z).
  { assert (log2_floor x <= 52)%Z; [|lia].
    apply log2_floor_below. rewrite Hx.
    assert (Hpow : 2 ^ 53 == inject_Z (2 ^ 53)) by (by rewrite Zpower_Qpower).
    rewrite Hpow. unfold Qabs, Qlt, inject_Z. cbn [Qnum Qden]. lia. }
  assert (Hnz : ~ 2 ^ e == 0) by (by apply Qpower_not_0).
  assert (Hpow : inject_Z (2 ^ (- e)) == / 2 ^ e).
  { rewrite Zpower_Qpower by lia. change (inject_Z 2) with 2. apply Qpower_opp. }
  rewrite (round_half_even_integer _ (n * 2 ^ (- e))).
  - rewrite <- (Qred_inject_Z n). apply Qred_complete.
    rewrite inject_Z_mult, Hpow. by field.
  - rewrite Hx, inject_Z_mult, Hpow. reflexivity.
Qed.

Lemma Qfloor_minus_Z (x : Q) (k : Z) : Qfloor (x - inject_Z k) = (Qfloor x - k)%Z.
Proof.
  destruct x as [a b]. unfold Qfloor, Qminus, Qplus, Qopp, inject_Z. cbn [Qnum Qden].
  rewrite Z.mul_1_r, Pos.mul_1_r.
  replace (a + - k * Z.pos b)%Z with (a + (- k) * Z.pos b)%Z by lia.
  rewrite Z.div_add by lia. lia.
Qed.

Lemma below_2_53 (x : Q) : x < 2 ^ 53 -> (Qfloor x < 2 ^ 53)%Z.
Proof.
  intros Hx. assert (Hpow : 2 ^ 53 == inject_Z (2 ^ 53)) by (by rewrite Zpower_Qpower).
  rewrite Hpow in Hx. rewrite Zlt_Qlt. eapply Qle_lt_trans; [apply Qfloor_le|done].
Qed.

Section Remainder.
Variables (x : Q) (w : positive).
Hypothesis Hx : 0 <= x.

Lemma fmod_nonneg_eq :
  fmod x (inject_Z (Z.pos w)) == x - inject_Z (Z.pos w * (Qfloor x / Z.pos w)).
Proof using Hx.
  unfold fmod. rewrite trunc_floor; rewrite Qfloor_div_pos.
  - rewrite inject_Z_mult. reflexivity.
  - apply Z.div_pos; [by apply Qfloor_nonneg | lia].
Qed.

Lemma fmod_floor : Qfloor (fmod x (inject_Z (Z.pos w))) = (Qfloor x mod Z.pos w)%Z.
Proof using Hx.
  rewrite (Qfloor_comp _ _ fmod_nonneg_eq), Qfloor_minus_Z, Z.mod_eq by lia. done.
Qed.

Lemma fmod_nonneg : 0 <= fmod x (inject_Z (Z.pos w)).
Proof using Hx.
  eapply Qle_trans; [|apply Qfloor_le]. rewrite fmod_floor.
  change 0 with (inject_Z 0). rewrite <- Zle_Qle. apply Z.mod_pos_bound. lia.
Qed.

Lemma fmod_le : fmod x (inject_Z (Z.pos w)) <= x.
Proof using Hx.
  rewrite fmod_nonneg_eq. set (q := (Qfloor x / Z.pos w)%Z).
  assert (0 <= inject_Z (Z.pos w * q)).
  { change 0 with (inject_Z 0). rewrite <- Zle_Qle. apply Z.mul_nonneg_nonneg; [lia|].
    apply Z.div_pos; [by apply Qfloor_nonneg | lia]. }
  apply Qplus_le_l with (z := inject_Z (Z.pos w * q)). ring_simplify.
  rewrite <- (Qplus_0_r x) at 1. apply Qplus_le_r. done.
Qed.

(** On a time that is not negative [%] is exact. *)
Lemma float_rem_nonneg : float_rem x (inject_Z (Z.pos w)) == fmod x (inject_Z (Z.pos w)).
Proof using Hx.
  unfold float_rem. destruct (Qeq_bool _ 0) eqn:Hzero.
  { apply Qeq_bool_eq in Hzero. by rewrite Hzero. }
  assert (Qltb (fmod x (inject_Z (Z.pos w))) 0 = false) as ->.
  { unfold Qltb. apply negb_false_iff, Qle_bool_iff, fmod_nonneg. }
  reflexivity.
Qed.

(** Below [2 ^ 53], [//] is exact. *)
Lemma float_floor_div_nonneg :
  x < 2 ^ 53 -> float_floor_div x (inject_Z (Z.pos w)) = inject_Z (Qfloor x / Z.pos w).
Proof using Hx.
  intros Hbig. pose proof (below_2_53 x Hbig) as Hfloor.
  pose proof (Qfloor_nonneg x Hx) as Hpos. set (q := (Qfloor x / Z.pos w)%Z).
  assert (Hq : (0 <= q)%Z) by (apply Z.div_pos; lia).
  assert (Hwq : (Z.pos w * q <= Qfloor x)%Z) by (apply Z.mul_div_le; lia).
  unfold float_floor_div.
  assert (Qltb (fmod x (inject_Z (Z.pos w))) 0 = false) as ->.
  { unfold Qltb. apply negb_false_iff, Qle_bool_iff, fmod_nonneg. }
  change (Qltb (inject_Z (Z.pos w)) 0) with false. cbn [eqb negb]. rewrite andb_false_r.
  rewrite (round64_integer (x - _) (Z.pos w * q)); [| |lia].
  2:{ rewrite fmod_nonneg_eq. fold q. ring. }
  rewrite (round64_integer _ q); [| |nia].
  2:{ rewrite inject_Z_mult. field. done. }
  destruct (Qeq_bool (inject_Z q) 0) eqn:Hzero.
  { apply Qeq_bool_eq in Hzero. unfold Qeq, inject_Z in Hzero. cbn [Qnum Qden] in Hzero.
    by replace q with 0%Z by lia. }
  rewrite Qfloor_Z. rewrite (round64_integer _ 0); [done| |done]. ring.
Qed.
End Remainder.

Lemma trunc_inject_Z (z : Z) : trunc (inject_Z z) = z.
Proof. unfold trunc, inject_Z; simpl. apply Z.quot_1_r. Qed.

(** The three numbers that [format_timestamp] and [hhmmss] compute, in terms
    of the whole seconds. *)
Lemma clock_fields (seconds : number) :
  0 <= value seconds -> exact seconds ->
  int (floordiv seconds 3600) = (whole seconds / 3600)%Z /\
  int (floordiv (pymod seconds 3600) 60) = (whole seconds mod 3600 / 60)%Z /\
  int (pymod seconds 60) = (whole seconds mod 60)%Z.
Proof.
  destruct seconds as [n|x]; unfold whole; cbn [value exact int floordiv pymod].
  { by rewrite Qfloor_Z. }
  intros Hx Hbig.
  change (inject_Z 3600) with (inject_Z (Z.pos 3600)).
  change (inject_Z 60) with (inject_Z (Z.pos 60)).
  pose proof (float_rem_nonneg x 3600 Hx) as Hrem.
  pose proof (fmod_nonneg x 3600 Hx) as Hrem0. rewrite <- Hrem in Hrem0.
  pose proof (fmod_le x 3600 Hx) as Hrem1. rewrite <- Hrem in Hrem1.
  rewrite float_floor_div_nonneg by done.
  rewrite float_floor_div_nonneg; [|done|by eapply Qle_lt_trans].
  rewrite !trunc_inject_Z, (Qfloor_comp _ _ Hrem), fmod_floor by done.
  split; [done|]. split; [done|].
  rewrite trunc_floor; rewrite (Qfloor_comp _ _ (float_rem_nonneg x 60 Hx)), fmod_floor by done;
    [done|]. apply Z.mod_pos_bound. lia.
Qed.

Local Close Scope Q_scope.

Lemma format_02d_below_100 (n : Z) :
  (0 <= n < 100)%Z → format_02d n = two_digits n.
Proof.
  intros Hn.
  assert (Hall : forallb (fun k => bool_decide
            (format_02d (Z.of_nat k) = two_digits (Z.of_nat k))) (seq 0 100) = true)
    by (vm_compute; reflexivity).
  rewrite forallb_forall in Hall.
  specialize (Hall (Z.to_nat n)). rewrite Z2Nat.id in Hall by lia.
  apply bool_decide_eq_true_1 in Hall; [done|].
  apply in_seq. lia.
Qed.

(** The fields of the hours, above and below one hundred hours. *)
Lemma format_02d_hours (n : Z) :
  (0 <= n)%Z →
  format_02d n = if (n <? 100)%Z then two_digits n else str_of_int n.
Proof.
  intros Hn. destruct (Z.ltb_spec n 100).
  - by apply format_02d_below_100.
  - unfold format_02d.
    destruct (Z.ltb_spec n 0); [lia|]. destruct (Z.ltb_spec n 10); [lia|done].
Qed.




(** X2. The duration of a row is written with the same three numbers, and
    always with its three fields, hours included, for a duration that is not
    negative and is an int, or a float below [2 ^ 53]; below [2 ^ 53] an int
    is formatted as the float of the same value. *)
Theorem duration_three_fields (duration : number) :
  (0 <= value duration)%Q → exact duration →
  hhmmss duration =
    (if (whole duration / 3600 <? 100)%Z then two_digits (whole duration / 3600)
     else str_of_int (whole duration / 3600))
    ++ lit ":" ++ two_digits (whole duration mod 3600 / 60)
    ++ lit ":" ++ two_digits (whole duration mod 60)
  ∧ (∀ n, duration = Int n → (n < 2 ^ 53)%Z →
       format_duration (PInt n) = format_duration (PFloat (inject_Z n))).
Proof.
  intros Hpos Hexact.
  assert (Hform : ∀ d, (0 <= value d)%Q → exact d →
            hhmmss d =
              (if (whole d / 3600 <? 100)%Z then two_digits (whole d / 3600)
               else str_of_int (whole d / 3600))
              ++ lit ":" ++ two_digits (whole d mod 3600 / 60)
              ++ lit ":" ++ two_digits (whole d mod 60)).
  { intros d Hd He. pose proof (Qfloor_nonneg _ Hd) as Hw. fold (whole d) in Hw.
    unfold hhmmss. destruct (clock_fields d Hd He) as (-> & -> & ->).
    set (n := whole d) in *.
    pose proof (Z.mod_pos_bound n 60 ltac:(lia)).
    pose proof (Z.mod_pos_bound n 3600 ltac:(lia)).
    rewrite (format_02d_below_100 (n mod 60)) by lia.
    rewrite (format_02d_below_100 (n mod 3600 / 60))
      by (split; [apply Z.div_pos; lia | apply Z.div_lt_upper_bound; lia]).
    by rewrite format_02d_hours by (apply Z.div_pos; lia). }
  split; [by apply Hform|].
  intros n -> Hn. cbn [format_duration]. f_equal.
  rewrite (Hform (Int n)), (Hform (Float (inject_Z n))); try done.
  cbn [exact].
  assert (Hpow : (2 ^ 53 == inject_Z (2 ^ 53))%Q) by (by rewrite Zpower_Qpower).
  rewrite Hpow. by rewrite <- Zlt_Qlt.
Qed.

Lemma duration_three_fields_witness :
  format_duration (PFloat 125.5) = PStr (lit "00:02:05").
Proof.
  destruct (duration_three_fields (Float 125.5) ltac:(by vm_compute) ltac:(by vm_compute))
    as [Hd _].
  cbn [format_duration]. rewrite Hd. by vm_compute.
Defined.

(** ** The document renderer *)

Lemma add_run_returns (E : collaborators) (text : str) (bold : bool) (r : run) :
  add_run E text bold = Ok r → r = Run text bold.
Proof.
  unfold add_run. case_bool_decide; [by intros [= <-]|].
  destruct (run_error E text); [discriminate | by intros [= <-]].
Qed.

Lemma add_run_accepts (E : collaborators) (text : str) (bold : bool) :
  run_error E text = None → add_run E text bold = Ok (Run text bold).
Proof. intros Hok. unfold add_run. rewrite Hok. by case_bool_decide. Qed.

Lemma add_segments_returns (E : collaborators) (segments : list Segment) (ps : list block) :
  add_segments E segments = Ok ps →
  ps = (λ segment, Paragraph [timestamp_run segment; Run (strip (seg_text segment)) false])
         <$> segments.
Proof.
  revert ps. induction segments as [|segment rest IH]; intros ps; [by intros [= <-]|].
  cbn [add_segments]. unfold add_segment, mbind, res_bind.
  destruct (add_run E _ true) as [stamp|] eqn:Hstamp; [|discriminate].
  destruct (add_run E _ false) as [text|] eqn:Htext; [|discriminate].
  destruct (add_segments E rest) as [ps'|]; [|discriminate].
  intros [= <-]. apply add_run_returns in Hstamp, Htext. subst.
  by rewrite (IH ps' eq_refl).
Qed.

(** A document that [word] gets to save is the document of the result. *)
Lemma build_document_returns (E : collaborators) (result : Result) (doc : document) :
  build_document E result = Ok doc → doc = word_document result.
Proof.
  unfold build_document, add_heading, add_paragraph, word_document, mbind, res_bind.
  destruct (add_run E heading_text false); [|discriminate].
  destruct (res_segments result) as [segments|].
  - destruct (add_segments E segments) as [ps|] eqn:Hps; [|discriminate].
    intros [= <-]. by rewrite (add_segments_returns E segments ps Hps).
  - case_bool_decide; [by intros [= <-]|].
    destruct (add_run E _ false) as [r|] eqn:Hr; [|discriminate].
    intros [= <-]. by rewrite (add_run_returns E _ _ r Hr).
Qed.

(** The document is built when python-docx refuses none of its texts. *)
Lemma build_document_accepts (E : collaborators) (result : Result) :
  Forall (λ text, run_error E text = None) (texts result) →
  build_document E result = Ok (word_document result).
Proof.
  unfold texts. intros Hall. apply Forall_cons in Hall as [Hheading Hbody].
  unfold build_document, add_heading, add_paragraph, word_document, mbind, res_bind.
  rewrite (add_run_accepts E _ _ Hheading).
  destruct (res_segments result) as [segments|].
  - assert (add_segments E segments
            = Ok ((λ segment, Paragraph [timestamp_run segment;
                                         Run (strip (seg_text segment)) false])
                    <$> segments)) as ->; [|done].
    induction segments as [|segment rest IH]; [done|].
    cbn [mbind list_bind] in Hbody.
    apply Forall_cons in Hbody as [Hstamp Hbody]. apply Forall_cons in Hbody as [Htext Hbody].
    cbn [add_segments]. unfold add_segment, mbind, res_bind.
    unfold timestamp_run in Hstamp. cbn [run_text] in Hstamp.
    rewrite (add_run_accepts E _ _ Hstamp), (add_run_accepts E _ _ Htext).
    by rewrite (IH Hbody).
  - apply Forall_cons in Hbody as [Htext _].
    case_bool_decide; [done|]. by rewrite (add_run_accepts E _ _ Htext).
Qed.

(** What a return of [word] tells, and what an exception leaves. *)
Lemma word_returns (E : collaborators) (result : Result) (documento : str) (w w' : world) :
  word E result documento w = (Ok tt, w') →
  build_document E result = Ok (word_document result) ∧
  save_error E documento w = None ∧
  w' = set_docs (<[documento := word_document result]> (docs w)) w.
Proof.
  unfold word. destruct (build_document E result) as [doc|] eqn:Hdoc; [|discriminate].
  apply build_document_returns in Hdoc as ->.
  destruct (save_error E documento w); [discriminate|]. by intros [= <-].
Qed.

Lemma word_raises (E : collaborators) (result : Result) (documento : str) (w w' : world)
    (e : exn) :
  word E result documento w = (Raise e, w') → w' = w.
Proof.
  unfold word. destruct (build_document E result); [|by intros [= _ <-]].
  destruct (save_error E documento w); [by intros [= _ <-] | discriminate].
Qed.

Lemma paragraphs_of_segments (segments : list Segment) :
  paragraph_text <$> paragraphs
      ((λ segment, Paragraph [timestamp_run segment; Run (strip (seg_text segment)) false])
         <$> segments)
    = segment_line <$> segments.
Proof.
  induction segments as [|segment rest IH]; [done|].
  cbn [fmap list_fmap paragraphs omap list_omap]. fold (paragraphs).
  unfold paragraphs in IH |- *. cbn [omap list_omap fmap list_fmap]. f_equal; [|exact IH].
  unfold paragraph_text, segment_line, timestamp_run.
  cbn [concat fmap list_fmap run_text]. by rewrite app_nil_r, <- !app_assoc.
Qed.

(** The paragraphs of a saved document: those of the segments, one each and
    in their order, each the two timestamps in brackets followed by the
    trimmed text, when the result has the key of the segments; the one
    paragraph of the full text when it has not. *)
Lemma word_paragraphs (E : collaborators) (result : Result) (documento : str) (w w' : world) :
  word E result documento w = (Ok tt, w') →
  ∃ doc, docs w' !! documento = Some doc ∧
    head doc = Some (Heading heading_text 0) ∧
    paragraph_text <$> paragraphs doc =
      match res_segments result with
      | Some segments => segment_line <$> segments
      | None => [res_text result]
      end.
Proof.
  intros Hword. apply word_returns in Hword as (_ & _ & ->).
  exists (word_document result). split; [apply lookup_insert_eq|]. split; [done|].
  unfold word_document. destruct (res_segments result) as [segments|].
  - apply paragraphs_of_segments.
  - unfold paragraphs, paragraph_text. simpl.
    case_bool_decide as Hempty; simpl; [by rewrite Hempty | by rewrite app_nil_r].
Qed.

(** C5.  [word] tests whether the result has the key of the segments, not
    whether their sequence is empty: for a result whose sequence of segments
    is empty, the document that is saved has the heading and no paragraph at
    all, whatever the full text is; the fallback that the comment of the
    code announces for a result without segments, one paragraph with the
    full text, is not written. *)
Theorem empty_segments_leave_no_paragraph (E : collaborators) (text documento : str)
    (w w' : world) :
  word E {| res_text := text; res_segments := Some [] |} documento w = (Ok tt, w') →
  docs w' !! documento = Some [Heading heading_text 0] ∧
  paragraphs [Heading heading_text 0] = [] ∧
  paragraph_text <$> paragraphs [Heading heading_text 0] ≠ [text].
Proof.
  intros Hword. apply word_returns in Hword as (_ & _ & ->).
  split; [apply lookup_insert_eq|]. split; [done|]. discriminate.
Qed.

Lemma empty_segments_leave_no_paragraph_witness :
  ∃ w', word all_succeed (sample_result (Some [])) (lit "v.docx") empty_disk = (Ok tt, w') ∧
    res_text (sample_result (Some [])) = lit "hola mundo" ∧
    docs w' !! lit "v.docx" = Some [Heading heading_text 0].
Proof.
  eexists. split; [reflexivity|]. split; [done|].
  apply (empty_segments_leave_no_paragraph all_succeed (lit "hola mundo") (lit "v.docx")
           empty_disk _ eq_refl).
Defined.

(** ** The input resolver *)

Lemma trimmed_urls_cons (c : cell) (column : list cell) :
  trimmed_urls (c :: column) =
    match c with
    | Text s => if bool_decide (strip s ≠ []) then strip s :: trimmed_urls column
                else trimmed_urls column
    | _ => trimmed_urls column
    end.
Proof.
  unfold trimmed_urls. destruct c as [|s|x]; simpl; [done| |done].
  rewrite filter_cons. case_bool_decide; by case_decide.
Qed.

(** On a column of texts and missing values the loop never raises: it adds
    the trimmed entries that are not blank, in their order. *)
Lemma collect_urls_textual (column : list cell) (urls : list str) :
  Forall (λ c, is_textual c = true) column →
  collect_urls column urls = Ok (urls ++ trimmed_urls column).
Proof.
  intros Htext. revert urls.
  induction Htext as [|c column Hc _ IH]; intros urls.
  - unfold trimmed_urls; simpl. by rewrite app_nil_r.
  - rewrite trimmed_urls_cons. destruct c as [|s|x]; simpl; [apply IH| |discriminate Hc].
    case_bool_decide; [|apply IH]. rewrite IH. by rewrite <- app_assoc.
Qed.

(** The loop raises exactly when the column holds a number, and then with an
    [AttributeError]; otherwise it adds the trimmed entries. *)
Lemma collect_urls_outcome (column : list cell) (urls : list str) :
  match collect_urls column urls with
  | Ok all => Forall (λ c, is_textual c = true) column ∧ all = urls ++ trimmed_urls column
  | Raise e => Exists (λ c, is_textual c = false) column ∧ exn_class_of e = AttributeError
  end.
Proof.
  revert urls. induction column as [|c column IH]; intros urls.
  - simpl. split; [constructor|]. unfold trimmed_urls. simpl. by rewrite app_nil_r.
  - rewrite trimmed_urls_cons. destruct c as [|s|x]; simpl.
    + specialize (IH urls). destruct (collect_urls column urls).
      * destruct IH as [Ht ->]. split; [by constructor | done].
      * destruct IH as [Hn He]. split; [by apply Exists_cons_tl | done].
    + case_bool_decide.
      * specialize (IH (urls ++ [strip s])). destruct (collect_urls column (urls ++ [strip s])).
        -- destruct IH as [Ht ->]. split; [by constructor | by rewrite <- app_assoc].
        -- destruct IH as [Hn He]. split; [by apply Exists_cons_tl | done].
      * specialize (IH urls). destruct (collect_urls column urls).
        -- destruct IH as [Ht ->]. split; [by constructor | done].
        -- destruct IH as [Hn He]. split; [by apply Exists_cons_tl | done].
    + split; [by apply Exists_cons_hd | done].
Qed.

(** A column holds a number or it does not. *)
Lemma textual_or_not (column : list cell) :
  Forall (λ c, is_textual c = true) column ∨ Exists (λ c, is_textual c = false) column.
Proof.
  pose proof (collect_urls_outcome column []) as Hloop.
  destruct (collect_urls column []); [left | right]; apply Hloop.
Qed.

Lemma textual_not_numeric (column : list cell) :
  Forall (λ c, is_textual c = true) column → ¬ Exists (λ c, is_textual c = false) column.
Proof.
  intros Htext Hnum. apply Exists_exists in Hnum as (c & Hin & Hc).
  rewrite Forall_forall in Htext. specialize (Htext c Hin). congruence.
Qed.

(** A number in the column passes both tests of the loop and then has no
    method [strip]: the exception is not one of the input errors. *)
Lemma extract_url_numeric_column :
  let w := World ∅ ∅ ∅ {[ lit "videos.csv" := {[ lit "url" := [Number 123] ]} ]} in
  ∃ e, extract_url (lit "videos.csv") w = (Raise e, w) ∧ exn_class_of e = AttributeError
       ∧ is_ValidationError e = false.
Proof. eexists. split; [by vm_compute|]. done. Qed.

(** C8.  Every case of [extract_url].  It raises an input error
    ([ValueError] or [FileNotFoundError]), and leaves the disk as it is, when
    the path does not end in .csv, when there is no file at the path, when
    the table has no column named url, or when the column holds texts and
    missing values of which none is left after the blank and missing ones
    are dropped.  When the url column holds a number, it raises an
    [AttributeError], which is not an input error: the loop tests
    [str(link).strip()] and then calls [link.strip()].  In every other case
    it returns the entries that are not blank, trimmed, in the order of the
    rows. *)
Theorem extract_url_resolves (csv : str) (w : world) :
  let column := tables w !! csv ≫= (λ df, df !! lit "url") in
  let urls := trimmed_urls (default [] column) in
  let numeric := Exists (λ c, is_textual c = false) (default [] column) in
  (endswith csv (lit ".csv") = false ∨ tables w !! csv = None ∨ column = None
     ∨ (¬ numeric ∧ urls = []) →
     ∃ e, extract_url csv w = (Raise e, w) ∧ is_ValidationError e = true)
  ∧ (endswith csv (lit ".csv") = true ∧ numeric →
     ∃ e, extract_url csv w = (Raise e, w) ∧ exn_class_of e = AttributeError
          ∧ is_ValidationError e = false)
  ∧ (¬ (endswith csv (lit ".csv") = false ∨ tables w !! csv = None ∨ column = None
          ∨ urls = []) ∧ ¬ numeric →
     extract_url csv w = (Ok urls, w)).
Proof.
  intros column urls numeric. unfold extract_url.
  destruct (endswith csv (lit ".csv")) eqn:Hext; simpl.
  2:{ split; [intros _; by eexists|]. split; [by intros [? _] | intros [[] _]; by left]. }
  subst urls numeric column.
  destruct (tables w !! csv) as [df|] eqn:Hfile; simpl in *.
  2:{ split; [intros _; by eexists|].
      split; [by intros [_ ?%Exists_nil] | intros [[] _]; right; by left]. }
  destruct (df !! lit "url") as [column|] eqn:Hcol; simpl in *.
  2:{ split; [intros _; by eexists|].
      split; [by intros [_ ?%Exists_nil] | intros [[] _]; right; right; by left]. }
  pose proof (collect_urls_outcome column []) as Hloop.
  destruct (collect_urls column []) as [all|e].
  - destruct Hloop as [Htext ->]. simpl.
    pose proof (textual_not_numeric column Htext) as Hnot.
    destruct (trimmed_urls column) as [|url urls] eqn:Hurls.
    + split; [intros _; by eexists|]. split; [by intros [_ ?] | intros [[] _]; by do 3 right].
    + split; [intros [|[|[|[_ ?]]]]; discriminate|]. split; [by intros [_ ?] | done].
  - destruct Hloop as [Hnum He]. split; [|split].
    + intros [|[|[|[Hnot _]]]]; try discriminate. by destruct Hnot.
    + intros _. exists e. split; [done|]. split; [done|].
      unfold is_ValidationError. by rewrite He.
    + by intros [_ Hnot].
Qed.

(** The textual case on a sample table, and a path that is not a CSV file. *)
Lemma extract_url_sample :
  extract_url (lit "videos.csv") disk_with_table
    = (Ok [lit "https://a"; lit "https://b"], disk_with_table)
  ∧ ∃ e, extract_url (lit "videos.txt") disk_with_table = (Raise e, disk_with_table)
         ∧ is_ValidationError e = true.
Proof. split; [by vm_compute|]. eexists. split; [by vm_compute|]. done. Qed.

(** ** The audit logger *)

(** [registro] builds its row, then writes it after the lines of the log, or
    after a new header when the log does not exist. *)
Lemma registro_unfold (info : Info + exn) (url output_csv : str) (w : world) :
  registro info url output_csv w =
    match registro_row info url with
    | Ok r => (Ok tt, set_logs (<[output_csv := lines_before output_csv w ++ [Row r]]> (logs w)) w)
    | Raise e => (Raise e, w)
    end.
Proof.
  unfold registro, mbind, M_bind, lift_res, get, to_csv, modify, lines_before.
  destruct (registro_row info url) as [r|e]; [|done].
  by destruct (logs w !! output_csv) as [old|].
Qed.

Lemma registro_row_error (e : exn) (url : str) :
  ∃ r, registro_row (inr e) url = Ok r ∧ row_URL r = url
       ∧ row_status r = lit "Error: " ++ exn_str e.
Proof. eexists. split; [reflexivity|]. done. Qed.

Lemma format_upload_date_text (s : str) :
  format_upload_date (PStr s) =
    Ok (PStr (if bool_decide (length s = 8)
              then take 4 s ++ lit "-" ++ take 2 (drop 4 s) ++ lit "-" ++ drop 6 s
              else s)).
Proof.
  unfold format_upload_date, slice.
  destruct (decide (length s = 8)) as [Hlen|Hlen].
  - rewrite (bool_decide_eq_true_2 (length s = 8)) by done.
    rewrite bool_decide_eq_true_2 by (intros ->; discriminate Hlen). simpl.
    do 8 f_equal. apply take_ge. rewrite length_drop. lia.
  - rewrite (bool_decide_eq_false_2 (length s = 8)) by done. by rewrite andb_false_r.
Qed.

(** C10. On the success path the date is decided by the length of the text
    alone: a text of length 8, digits or not, is recorded as its first four
    characters, a dash, the next two, a dash and the last two; a text of any
    other length is recorded as it is. *)
Theorem upload_date_rewritten_by_length (info : Info) (s url output_csv : str) (w : world) :
  info_upload_date info = Some (PStr s) →
  ∃ r, registro (inl info) url output_csv w
         = (Ok tt, set_logs (<[output_csv := lines_before output_csv w ++ [Row r]]> (logs w)) w)
       ∧ row_status r = lit "Success"
       ∧ row_upload_date r =
           PStr (if bool_decide (length s = 8)
                 then take 4 s ++ lit "-" ++ take 2 (drop 4 s) ++ lit "-" ++ drop 6 s
                 else s).
Proof.
  intros Hdate. rewrite registro_unfold. unfold registro_row.
  rewrite Hdate. change (get_or_NA (Some (PStr s))) with (PStr s).
  rewrite format_upload_date_text. simpl.
  eexists. split; [reflexivity|]. done.
Qed.

Lemma upload_date_rewritten_by_length_witness :
  ∃ r, registro (inl (sample_info (Some (PStr (lit "tomorrow"))))) (lit "u") log_file empty_disk
         = (Ok tt, set_logs (<[log_file := lines_before log_file empty_disk ++ [Row r]]>
                               (logs empty_disk)) empty_disk)
       ∧ row_upload_date r = PStr (lit "tomo-rr-ow").
Proof.
  destruct (upload_date_rewritten_by_length (sample_info (Some (PStr (lit "tomorrow"))))
              (lit "tomorrow") (lit "u") log_file empty_disk eq_refl) as (r & Hrun & _ & Hdate).
  exists r. split; [exact Hrun|]. rewrite Hdate. reflexivity.
Defined.

(** C7, as the code has it. On the success path a date of eight characters
    YYYYMMDD is recorded as YYYY-MM-DD; a date that is a text of any other
    length is recorded unchanged, not as the sentinel; the sentinel N/A is
    recorded when the metadata has no upload date. *)
Theorem upload_date_recorded (info : Info) (date : option str) (url : str) :
  info_upload_date info = PStr <$> date →
  ∃ r, registro_row (inl info) url = Ok r ∧ row_status r = lit "Success" ∧
    (∀ y1 y2 y3 y4 m1 m2 d1 d2, date = Some [y1; y2; y3; y4; m1; m2; d1; d2] →
       row_upload_date r = PStr [y1; y2; y3; y4; 45%N; m1; m2; 45%N; d1; d2]) ∧
    (∀ s, date = Some s → length s ≠ 8 → row_upload_date r = PStr s) ∧
    (date = None → row_upload_date r = NA).
Proof.
  intros Hdate. unfold registro_row. rewrite Hdate.
  destruct date as [s|].
  - change (get_or_NA (PStr <$> Some s)) with (PStr s).
    rewrite format_upload_date_text. simpl. eexists. split; [reflexivity|].
    split; [done|]. simpl. split; [|split; [|done]].
    + intros y1 y2 y3 y4 m1 m2 d1 d2 [= ->]. reflexivity.
    + intros s' [= <-] Hlen. by rewrite bool_decide_eq_false_2.
  - eexists. split; [reflexivity|]. split; [done|]. simpl.
    split; [|split]; [intros; discriminate | intros; discriminate | done].
Qed.

Lemma upload_date_recorded_witness :
  ∃ r, registro_row (inl (sample_info (Some (PStr (lit "20081010"))))) (lit "u") = Ok r
       ∧ row_upload_date r = PStr (lit "2008-10-10").
Proof.
  destruct (upload_date_recorded (sample_info (Some (PStr (lit "20081010"))))
              (Some (lit "20081010")) (lit "u") eq_refl) as (r & Hrow & _ & Hdigits & _).
  exists r. split; [exact Hrow|]. exact (Hdigits _ _ _ _ _ _ _ _ eq_refl).
Defined.

(** A date that is already written with dashes is neither rewritten nor
    replaced by the sentinel: it is recorded as it came. *)
Lemma dashed_date_is_not_sentinel :
  ∃ r, registro_row (inl (sample_info (Some (PStr (lit "2008-10-10"))))) (lit "u") = Ok r
       ∧ row_status r = lit "Success"
       ∧ row_upload_date r = PStr (lit "2008-10-10")
       ∧ row_upload_date r ≠ NA.
Proof. eexists. split; [reflexivity|]. simpl. split; [done|]. split; [done|]. discriminate. Qed.

(** A date that is present but is [None], as yt-dlp gives it for some
    videos, makes [len] raise: the row of the success path is not built. *)
Lemma upload_date_None_raises (url : str) :
  registro_row (inl (sample_info (Some PNone))) url
    = Raise (Exn TypeError (lit "object of type 'NoneType' has no len()")).
Proof. reflexivity. Qed.

Lemma rows_written_no_header (calls : list ((Info + exn) * str)) :
  headers (rows_written calls) = 0.
Proof.
  unfold headers, rows_written. induction calls as [|[info url] rest IH]; [done|].
  simpl. destruct (registro_row info url); simpl; done.
Qed.

(** C9. After any sequence of calls of [registro] on a log: if the log
    existed, its lines are still there, in the same order, followed by the
    rows of the calls, and no header was added; if it did not exist, the file
    holds one header, written first by the call that created it, followed by
    the rows.  A single call on an existing log adds its row and nothing
    else. *)
Theorem header_written_once (calls : list ((Info + exn) * str)) (output_csv : str) (w : world) :
  logs (registro_calls calls output_csv w) !! output_csv =
    match logs w !! output_csv with
    | Some old => Some (old ++ rows_written calls)
    | None =>
        match rows_written calls with
        | [] => None
        | rows => Some (Header columns :: rows)
        end
    end
  ∧ headers (rows_written calls) = 0
  ∧ (∀ info url old r,
       logs w !! output_csv = Some old → registro_row info url = Ok r →
       ∃ w', registro info url output_csv w = (Ok tt, w')
             ∧ logs w' !! output_csv = Some (old ++ [Row r])).
Proof.
  split; [|split; [apply rows_written_no_header|]].
  - revert w. induction calls as [|[info url] rest IH]; intros w.
    + simpl. by destruct (logs w !! output_csv); rewrite ?app_nil_r.
    + simpl. rewrite IH, registro_unfold. unfold rows_written; simpl.
      fold (rows_written rest).
      destruct (registro_row info url) as [r|e]; simpl; [|done].
      rewrite lookup_insert_eq. unfold lines_before.
      destruct (logs w !! output_csv) as [old|]; simpl.
      * by rewrite <- app_assoc.
      * done.
  - intros info url old r Hold Hrow. rewrite registro_unfold, Hrow.
    eexists. split; [reflexivity|]. simpl. rewrite lookup_insert_eq.
    unfold lines_before. by rewrite Hold.
Qed.

Lemma header_written_once_witness :
  ∃ r1 r2,
    logs (registro_calls [(inl (sample_info None), lit "a");
                          (inr (Exn RuntimeError (lit "boom")), lit "b")]
            log_file empty_disk) !! log_file
      = Some [Header columns; Row r1; Row r2]
    ∧ row_status r1 = lit "Success" ∧ row_status r2 = lit "Error: boom".
Proof.
  destruct (header_written_once [(inl (sample_info None), lit "a");
                                 (inr (Exn RuntimeError (lit "boom")), lit "b")]
              log_file empty_disk) as (Hlog & _).
  rewrite Hlog. eexists. eexists. split; [reflexivity|]. split; reflexivity.
Defined.

(** ** Reasoning about the monad *)

Lemma wp_bind {S A B} (m : M S A) (k : A → M S B) (Q : res B → S → Prop) (s : S) :
  wp m (λ r s', match r with Ok a => wp (k a) Q s' | Raise e => Q (Raise e) s' end) s →
  wp (m ≫= k) Q s.
Proof. unfold wp, mbind, M_bind. by destruct (m s) as [[a|e] s']. Qed.

(** ** What the stages leave untouched *)

Lemma keeps_logs_bind {A B} (m : M world A) (k : A → M world B) :
  keeps_logs m → (∀ a, keeps_logs (k a)) → keeps_logs (m ≫= k).
Proof.
  intros Hm Hk w. unfold mbind, M_bind. specialize (Hm w).
  destruct (m w) as [[a|e] w']; simpl in *; [|done].
  destruct (Hk a w') as [-> ->]. done.
Qed.

Lemma keeps_logs_pure {A} (r : res A) : keeps_logs (lift_res r).
Proof. done. Qed.

Lemma keeps_logs_download (E : collaborators) (url : str) : keeps_logs (download_video E url).
Proof. intros w. unfold download_video. by destruct (extract_info E url w). Qed.

Lemma keeps_logs_run_checked (E : collaborators) (cmd : list str) :
  keeps_logs (run_checked E cmd).
Proof. intros w. unfold run_checked. by destruct (subprocess_run E cmd w). Qed.

Lemma keeps_logs_convert (E : collaborators) (info : Info) : keeps_logs (convert_to_wav E info).
Proof.
  unfold convert_to_wav.
  repeat (apply keeps_logs_bind; [first [apply keeps_logs_pure | apply keeps_logs_run_checked]|];
          intros ?).
  done.
Qed.

Lemma keeps_logs_transcribe (E : collaborators) (o : str) :
  keeps_logs (λ w, (transcribe E o w, w)).
Proof. done. Qed.

Lemma keeps_logs_word (E : collaborators) (result : Result) (documento : str) :
  keeps_logs (word E result documento).
Proof.
  intros w. unfold word. destruct (build_document E result); [|done].
  by destruct (save_error E documento w).
Qed.

(** [clean] never raises, and touches the media files only. *)
Lemma clean_returns (E : collaborators) (i o : option str) (w : world) :
  ∃ fs, clean E i o w = (Ok tt, set_files fs w).
Proof.
  assert (Hone : ∀ (p : option str) (w : world), ∃ fs,
            clean_step E p w = (Ok tt, set_files fs w)).
  { intros [path|] w1; [|exists (files w1); by destruct w1].
    unfold clean_step, mbind, M_bind, get, try_except, os_remove, mret, M_ret.
    destruct (bool_decide (path ≠ []) && bool_decide (path ∈ files w1));
      [|exists (files w1); by destruct w1].
    destruct (remove_error E path w1); simpl; [exists (files w1); by destruct w1|].
    by eexists. }
  unfold clean. cbn [for_each]. unfold mbind at 1 2. unfold M_bind.
  destruct (Hone i w) as [fs1 ->]. destruct (Hone o (set_files fs1 w)) as [fs2 ->].
  exists fs2. done.
Qed.

Lemma keeps_logs_clean (E : collaborators) (i o : option str) : keeps_logs (clean E i o).
Proof. intros w. by destruct (clean_returns E i o w) as [fs ->]. Qed.

(** A step of the [try] block that is not the logger: it leaves the log,
    the tables and the counters as they are. *)
Lemma wp_step {A} (m : M frame A) (f0 f : frame) (Q : res A → frame → Prop) :
  (∀ f, unchanged_but_media f (m f).2) →
  unchanged_but_media f0 f →
  (∀ r f', unchanged_but_media f0 f' → Q r f') →
  wp m Q f.
Proof.
  intros Hm (Hl & Ht & Hx & Hy) HQ. apply HQ.
  destruct (Hm f) as (Hl' & Ht' & Hx' & Hy'). repeat split; congruence.
Qed.

Lemma in_world_unchanged {A} (m : M world A) (f : frame) :
  keeps_logs m → unchanged_but_media f (in_world m f).2.
Proof.
  intros Hm. unfold in_world. specialize (Hm f.(disk)).
  destruct (m (disk f)) as [r w]. simpl in *. by destruct Hm.
Qed.

Lemma lift_res_unchanged {A} (r : res A) (f : frame) :
  unchanged_but_media f (@lift_res frame A r f).2.
Proof. done. Qed.

Lemma set_artifacts_unchanged (i o : option str) (f : frame) :
  unchanged_but_media f (set_artifacts i o f).2.
Proof. done. Qed.

Ltac quiet_step :=
  apply wp_bind; eapply wp_step;
  [ intros ?;
    first [ apply lift_res_unchanged | apply set_artifacts_unchanged
          | apply in_world_unchanged;
            first [ apply keeps_logs_download | apply keeps_logs_convert
                  | apply keeps_logs_transcribe | apply keeps_logs_word ] ]
  | eassumption
  | ].

(** The [try] block ends in one of two ways: it returns, and then it has
    added one row, with the status Success, and counted one success; or it
    raises, and then neither the log nor a counter has changed. *)
Lemma item_body_outcome (E : collaborators) (url : str) (f : frame) :
  wp (item_body E url)
     (λ r f', match r with
              | Ok _ =>
                  ∃ row, logs (disk f')
                           = <[log_file := lines_before log_file (disk f) ++ [Row row]]>
                               (logs (disk f))
                         ∧ row_URL row = url ∧ row_status row = lit "Success"
                         ∧ tables (disk f') = tables (disk f)
                         ∧ exitosos f' = S (exitosos f) ∧ fallidos f' = fallidos f
              | Raise _ => unchanged_but_media f f'
              end) f.
Proof.
  assert (H0 : unchanged_but_media f f) by done.
  unfold item_body.
  quiet_step; intros [info|e] f1 H1; [|done].
  quiet_step; intros [title|e] f2 H2; [|done].
  quiet_step; intros [prefix|e] f3 H3; [|done].
  quiet_step; intros [[i o]|e] f4 H4; [|done].
  quiet_step; intros [[]|e] f5 H5; [|done].
  quiet_step; intros [result|e] f6 H6; [|done].
  quiet_step; intros [title'|e] f7 H7; [|done].
  quiet_step; intros [safe|e] f8 H8; [|done].
  quiet_step; intros [[]|e] f9 (Hl & Ht & Hx & Hy); [|done].
  apply wp_bind. unfold wp at 1, in_world. rewrite registro_unfold.
  unfold registro_row.
  destruct (format_upload_date (get_or_NA (info_upload_date info))) as [date|e]; simpl; [|done].
  unfold wp, count_exitoso, modify, lines_before; simpl.
  eexists. rewrite Hl, Ht, Hx, Hy. done.
Qed.

(** ** One iteration of the loop *)

(** Whatever the collaborators do, one iteration returns normally and has
    added exactly one row to the log, for its URL: the row of the success
    when the [try] block returned, the row of the error [e] when the block
    raised [e].  One counter has grown by one, accordingly. *)
Lemma process_item_outcome (E : collaborators) (url : str) (f : frame) :
  ∃ row f', process_item E url f = (Ok tt, f') ∧
    logs (disk f') = <[log_file := lines_before log_file (disk f) ++ [Row row]]> (logs (disk f)) ∧
    tables (disk f') = tables (disk f) ∧
    row_URL row = url ∧
    match (item_body E url (Frame (disk f) None None (exitosos f) (fallidos f))).1 with
    | Ok _ =>
        row_status row = lit "Success"
        ∧ exitosos f' = S (exitosos f) ∧ fallidos f' = fallidos f
    | Raise e =>
        row_status row = lit "Error: " ++ exn_str e
        ∧ exitosos f' = exitosos f ∧ fallidos f' = S (fallidos f)
    end.
Proof.
  unfold process_item. unfold mbind at 1. unfold M_bind, set_artifacts, modify.
  unfold try_finally, try_except, is_Exception.
  pose proof (item_body_outcome E url (Frame (disk f) None None (exitosos f) (fallidos f)))
    as Hbody.
  unfold wp in Hbody.
  destruct (item_body E url (Frame (disk f) None None (exitosos f) (fallidos f)))
    as [[[]|e] f1]; cbn [fst snd disk exitosos fallidos] in Hbody |- *; cbv beta iota.
  - destruct Hbody as (row & Hl & Hurl & Hstatus & Ht & Hx & Hy).
    unfold mbind, M_bind, get, in_world.
    destruct (clean_returns E (input_file f1) (output_file f1) (disk f1)) as [fs ->].
    exists row. eexists. split; [reflexivity|]. simpl. done.
  - destruct Hbody as (Hl & Ht & Hx & Hy).
    unfold mbind at 1. unfold M_bind, in_world at 1. rewrite registro_unfold.
    cbn [registro_row]. unfold count_fallido, modify. cbn [disk input_file output_file].
    unfold mbind, M_bind, get, in_world. cbn [disk input_file output_file].
    match goal with |- context [clean E ?i ?o ?w] =>
      destruct (clean_returns E i o w) as [fs ->] end.
    eexists. eexists. split; [reflexivity|]. simpl.
    unfold lines_before. rewrite Hl, Ht, Hx, Hy. done.
Qed.

Lemma data_rows_add_row (r : row) (w w' : world) :
  logs w' = <[log_file := lines_before log_file w ++ [Row r]]> (logs w) →
  data_rows log_file w' = data_rows log_file w ++ [r]
  ∧ lines_before log_file w' = lines_before log_file w ++ [Row r].
Proof.
  intros Hl. unfold data_rows, lines_before. rewrite Hl.
  unfold lines_before. rewrite lookup_insert_eq.
  destruct (logs w !! log_file) as [old|]; cbn [default from_option id].
  - rewrite omap_app. split; reflexivity.
  - split; reflexivity.
Qed.

(** ** The loop *)

(** The loop runs to its end on every list: it returns normally, and the
    rows it has added to the log are those of the videos, one each, in the
    order of the list. *)
Lemma process_all_outcome (E : collaborators) (videos : list str) (f : frame) :
  ∃ rows f', process_all E videos f = (Ok tt, f') ∧
    row_URL <$> rows = videos ∧
    logs (disk f') =
      match videos with
      | [] => logs (disk f)
      | _ => <[log_file := lines_before log_file (disk f) ++ (Row <$> rows)]> (logs (disk f))
      end ∧
    data_rows log_file (disk f') = data_rows log_file (disk f) ++ rows ∧
    tables (disk f') = tables (disk f) ∧
    exitosos f' + fallidos f' = exitosos f + fallidos f + length videos.
Proof.
  revert f. induction videos as [|url rest IH]; intros f.
  - exists [], f. simpl. rewrite app_nil_r. repeat split; lia.
  - destruct (process_item_outcome E url f) as (row & f1 & Hrun & Hl & Ht & Hurl & Hcount).
    destruct (IH f1) as (rows & f' & Hrest & Hurls & Hl' & Hrows & Ht' & Hsum).
    destruct (data_rows_add_row row (disk f) (disk f1) Hl) as [Hdata Hbefore].
    exists (row :: rows), f'. unfold process_all in *. cbn [for_each].
    unfold mbind at 1. unfold M_bind. rewrite Hrun, Hrest.
    split; [done|]. split; [by rewrite fmap_cons, Hurl, Hurls|].
    split; [|split; [|split]].
    + rewrite Hl'. destruct rest as [|url' rest'].
      * apply (f_equal length) in Hurls. destruct rows; [|discriminate Hurls]. exact Hl.
      * rewrite Hbefore, Hl, insert_insert_eq. by rewrite <- app_assoc.
    + rewrite Hrows, Hdata. by rewrite <- app_assoc.
    + congruence.
    + assert (exitosos f1 + fallidos f1 = S (exitosos f + fallidos f)).
      { destruct (item_body E url _).1; destruct Hcount as (_ & -> & ->); lia. }
      simpl. lia.
Qed.

(** [main] raises only what [extract_url] raised, before the loop. *)
Lemma main_outcome (E : collaborators) (argv : list str) (typed : str) (w : world) :
  match main E argv typed w with
  | (Ok (ok, ko), w') =>
      ∃ videos rows, row_URL <$> rows = videos ∧ ok + ko = length videos
        ∧ data_rows log_file w' = data_rows log_file w ++ rows
  | (Raise e, w') =>
      w' = w ∧ ∃ script csv, argv = [script; csv] ∧ extract_url csv w = (Raise e, w)
  end.
Proof.
  unfold main.
  assert (Hloop : ∀ videos w0,
    match (match process_all E videos (Frame w0 None None 0 0) with
           | (Ok _, f) => (Ok (exitosos f, fallidos f), disk f)
           | (Raise e, f) => (Raise e, disk f)
           end) with
    | (Ok (ok, ko), w') =>
        ∃ videos rows, row_URL <$> rows = videos ∧ ok + ko = length videos
          ∧ data_rows log_file w' = data_rows log_file w0 ++ rows
    | (Raise e, w') => w' = w0 ∧ ∃ script csv, argv = [script; csv]
                               ∧ extract_url csv w0 = (Raise e, w0)
    end).
  { intros videos w0.
    destruct (process_all_outcome E videos (Frame w0 None None 0 0))
      as (rows & f' & -> & Hurls & _ & Hrows & _ & Hsum).
    exists videos, rows. simpl in *. done. }
  destruct argv as [|script [|csv [|extra argv]]]; try apply Hloop.
  assert (Hsame : ∀ r w1, extract_url csv w = (r, w1) → w1 = w).
  { unfold extract_url. intros r w1. repeat case_match; congruence. }
  destruct (extract_url csv w) as [[videos|e] w1] eqn:Hurl;
    pose proof (Hsame _ _ eq_refl) as ->.
  - apply Hloop.
  - split; [done|]. by exists script, csv.
Qed.

(** ** The four stages inside the [try] block *)

(** A failure of the download is raised by the block. *)
Lemma acquire_failure_raises (E : collaborators) (url : str) (f : frame) (e : exn)
    (fs : gset str) :
  extract_info E url (disk f) = (Raise e, fs) →
  ∃ f1, item_body E url f = (Raise e, f1).
Proof.
  intros Hdl. unfold item_body, mbind, M_bind, in_world, download_video.
  rewrite Hdl. by eexists.
Qed.

(** A failure of ffmpeg is raised by the block, and the two variables of the
    artifacts are still what they were: the assignment of line 68 has not
    run. *)
Lemma normalize_failure_raises (E : collaborators) (url : str) (f : frame) (info : Info)
    (title path : str) (paths : list str) (e : exn) (fs fs' : gset str) :
  extract_info E url (disk f) = (Ok info, fs) →
  info_title info = Some (PStr title) →
  info_requested_downloads info = Some (path :: paths) →
  subprocess_run E (comando path (safe_title title ++ lit ".wav")) (set_files fs (disk f))
    = (Raise e, fs') →
  ∃ f1, item_body E url f = (Raise e, f1) ∧ files (disk f1) = fs'
        ∧ input_file f1 = input_file f ∧ output_file f1 = output_file f.
Proof.
  intros Hdl Htitle Hpath Hrun.
  unfold item_body, mbind, M_bind, in_world, download_video, convert_to_wav, run_checked,
    lift_res, getitem_title, downloaded_filepath, first_50, re_sub_title, mbind, M_bind.
  rewrite Hdl. cbn [disk]. rewrite Htitle, Hpath, Hrun. by eexists.
Qed.

(** A failure of the transcription is raised by the block, after the two
    variables were assigned. *)
Lemma transcribe_failure_raises (E : collaborators) (url : str) (f : frame) (info : Info)
    (title path : str) (paths : list str) (e : exn) (fs fs' : gset str) :
  extract_info E url (disk f) = (Ok info, fs) →
  info_title info = Some (PStr title) →
  info_requested_downloads info = Some (path :: paths) →
  subprocess_run E (comando path (safe_title title ++ lit ".wav")) (set_files fs (disk f))
    = (Ok tt, fs') →
  transcribe E (safe_title title ++ lit ".wav") (set_files fs' (set_files fs (disk f)))
    = Raise e →
  ∃ f1, item_body E url f = (Raise e, f1)
        ∧ input_file f1 = Some path ∧ output_file f1 = Some (safe_title title ++ lit ".wav").
Proof.
  intros Hdl Htitle Hpath Hrun Hwhisper.
  unfold item_body, mbind, M_bind, in_world, download_video, convert_to_wav, run_checked,
    lift_res, getitem_title, downloaded_filepath, first_50, re_sub_title, mbind, M_bind,
    set_artifacts, modify, mret, M_ret.
  rewrite Hdl. cbn [disk]. rewrite Htitle, Hpath, Hrun. cbn [disk]. rewrite Hwhisper.
  by eexists.
Qed.

(** A failure of the document, refused or not saved, is raised by the
    block. *)
Lemma render_failure_raises (E : collaborators) (url : str) (f : frame) (info : Info)
    (title path : str) (paths : list str) (result : Result) (e : exn) (fs fs' : gset str)
    (w' : world) :
  extract_info E url (disk f) = (Ok info, fs) →
  info_title info = Some (PStr title) →
  info_requested_downloads info = Some (path :: paths) →
  subprocess_run E (comando path (safe_title title ++ lit ".wav")) (set_files fs (disk f))
    = (Ok tt, fs') →
  transcribe E (safe_title title ++ lit ".wav") (set_files fs' (set_files fs (disk f)))
    = Ok result →
  word E result (safe_title title ++ lit ".docx") (set_files fs' (set_files fs (disk f)))
    = (Raise e, w') →
  ∃ f1, item_body E url f = (Raise e, f1) ∧ docs (disk f1) = docs (disk f)
        ∧ logs (disk f1) = logs (disk f) ∧ exitosos f1 = exitosos f ∧ fallidos f1 = fallidos f.
Proof.
  intros Hdl Htitle Hpath Hrun Hwhisper Hword.
  pose proof (word_raises _ _ _ _ _ _ Hword) as ->.
  unfold item_body, mbind, M_bind, in_world, download_video, convert_to_wav, run_checked,
    lift_res, getitem_title, downloaded_filepath, first_50, re_sub_title, mbind, M_bind,
    set_artifacts, modify, mret, M_ret.
  rewrite Hdl. cbn [disk]. rewrite Htitle, Hpath, Hrun. cbn [disk]. rewrite Hwhisper.
  cbn [disk]. rewrite Hword. by eexists.
Qed.

(** The two failures of the document, as exceptions of [word]. *)
Lemma word_refuses (E : collaborators) (result : Result) (documento : str) (w : world)
    (e : exn) :
  build_document E result = Raise e → word E result documento w = (Raise e, w).
Proof. intros Hbuild. unfold word. by rewrite Hbuild. Qed.

Lemma word_fails_to_save (E : collaborators) (result : Result) (documento : str) (w : world)
    (doc : document) (e : exn) :
  build_document E result = Ok doc → save_error E documento w = Some e →
  word E result documento w = (Raise e, w).
Proof. intros Hbuild Hsave. unfold word. by rewrite Hbuild, Hsave. Qed.

(** A failure of any of the four stages is an exception of the block. *)
Lemma stage_failure_raises (E : collaborators) (url : str) (f : frame) (e : exn) :
  stage_failure E url (disk f) e → ∃ f1, item_body E url f = (Raise e, f1).
Proof.
  intros [fs Hdl
         |info title path paths fs fs' Hdl Htitle Hpath Hrun
         |info title path paths fs fs' Hdl Htitle Hpath Hrun Hwhisper
         |info title path paths result fs fs' Hdl Htitle Hpath Hrun Hwhisper Hbuild
         |info title path paths result doc fs fs' Hdl Htitle Hpath Hrun Hwhisper Hbuild Hsave].
  - by apply (acquire_failure_raises E url f e fs).
  - destruct (normalize_failure_raises E url f info title path paths e fs fs')
      as (f1 & Hbody & _); [done..|]. by exists f1.
  - destruct (transcribe_failure_raises E url f info title path paths e fs fs')
      as (f1 & Hbody & _); [done..|]. by exists f1.
  - destruct (render_failure_raises E url f info title path paths result e fs fs' _
                Hdl Htitle Hpath Hrun Hwhisper (word_refuses E result _ _ e Hbuild))
      as (f1 & Hbody & _). by exists f1.
  - destruct (render_failure_raises E url f info title path paths result e fs fs' _
                Hdl Htitle Hpath Hrun Hwhisper (word_fails_to_save E result _ _ doc e Hbuild Hsave))
      as (f1 & Hbody & _). by exists f1.
Qed.

(** When ffmpeg fails, [clean] is called with [None] twice and removes
    nothing: the files on the disk after the iteration are those ffmpeg
    left, the downloaded one among them. *)
Lemma normalize_failure_leaks (E : collaborators) (url : str) (f : frame) (info : Info)
    (title path : str) (paths : list str) (e : exn) (fs fs' : gset str) :
  extract_info E url (disk f) = (Ok info, fs) →
  info_title info = Some (PStr title) →
  info_requested_downloads info = Some (path :: paths) →
  subprocess_run E (comando path (safe_title title ++ lit ".wav")) (set_files fs (disk f))
    = (Raise e, fs') →
  files (disk (process_item E url f).2) = fs'.
Proof.
  intros Hdl Htitle Hpath Hrun.
  destruct (normalize_failure_raises E url (Frame (disk f) None None (exitosos f) (fallidos f))
              info title path paths e fs fs' Hdl Htitle Hpath Hrun)
    as (f1 & Hbody & Hfiles & Hin & Hout).
  unfold process_item. unfold mbind at 1. unfold M_bind, set_artifacts, modify.
  unfold try_finally, try_except, is_Exception. rewrite Hbody. cbv beta iota.
  unfold mbind at 1. unfold M_bind, in_world at 1. rewrite registro_unfold.
  cbn [registro_row]. unfold count_fallido, modify. cbn [disk input_file output_file].
  unfold mbind, M_bind, get, in_world. cbn [disk input_file output_file].
  rewrite Hin, Hout. cbn [input_file output_file]. by rewrite <- Hfiles.
Qed.

Lemma extract_url_reads_only (csv : str) (w : world) :
  (extract_url csv w).2 = w.
Proof. unfold extract_url. by repeat case_match. Qed.

(** What [extract_url] raises is an input error, or the [AttributeError] of
    a url column that holds a number. *)
Lemma extract_url_raises (csv : str) (w w' : world) (e : exn) :
  extract_url csv w = (Raise e, w') →
  w' = w ∧
  (is_ValidationError e = true ∨
   exn_class_of e = AttributeError ∧
   Exists (λ c, is_textual c = false)
          (default [] (tables w !! csv ≫= (λ df, df !! lit "url")))).
Proof.
  unfold extract_url.
  destruct (endswith csv (lit ".csv")); simpl; [|intros [= <- <-]; split; [done | by left]].
  destruct (tables w !! csv) as [df|]; simpl;
    [|intros [= <- <-]; split; [done | by left]].
  destruct (df !! lit "url") as [column|]; simpl;
    [|intros [= <- <-]; split; [done | by left]].
  pose proof (collect_urls_outcome column []) as Hloop.
  destruct (collect_urls column []) as [[|url urls]|e']; simpl.
  - intros [= <- <-]. split; [done | by left].
  - discriminate.
  - intros [= <- <-]. split; [done|]. right. by destruct Hloop.
Qed.

(** ** The pipeline runner *)

(** C2. Whatever the stages do, one iteration of the loop returns and has
    added exactly one row to the log, after the lines the log had (or after a
    new header), for the URL of the item, with the status of a success or of
    an error; and the loop over a list of videos has added as many rows as
    the list has videos, one for each, after the rows the log had. *)
Theorem one_row_per_item (E : collaborators) (url : str) (videos : list str) (f : frame) :
  (∃ r f', process_item E url f = (Ok tt, f') ∧
     logs (disk f') = <[log_file := lines_before log_file (disk f) ++ [Row r]]> (logs (disk f)) ∧
     data_rows log_file (disk f') = data_rows log_file (disk f) ++ [r] ∧
     row_URL r = url ∧
     (row_status r = lit "Success" ∨ ∃ e, row_status r = lit "Error: " ++ exn_str e))
  ∧ (∃ rows f', process_all E videos f = (Ok tt, f') ∧
       length rows = length videos ∧ row_URL <$> rows = videos ∧
       data_rows log_file (disk f') = data_rows log_file (disk f) ++ rows).
Proof.
  split.
  - destruct (process_item_outcome E url f) as (r & f' & Hrun & Hl & _ & Hurl & Hstatus).
    exists r, f'. split; [done|]. split; [done|].
    split; [apply (data_rows_add_row r (disk f) (disk f') Hl)|]. split; [done|].
    destruct (item_body E url _).1 as [[]|e]; [left | right; exists e]; apply Hstatus.
  - destruct (process_all_outcome E videos f) as (rows & f' & Hrun & Hurls & _ & Hrows & _).
    exists rows, f'. split; [done|]. split; [|done].
    rewrite <- Hurls. by rewrite length_fmap.
Qed.

(** The loop returns normally on every list of videos, whatever the stages
    do, and has then handled every video, in the order of the list.  A
    failure of a stage (download, ffmpeg, transcription, document), as any
    exception that the [try] block of an item raises, is recorded as the
    error of that item and counted, and the iteration returns normally.
    [main] runs the loop on the list it resolved; what it raises was raised
    by [extract_url], before the first item and with the disk as it was,
    and is an input error or the [AttributeError] of a numeric column. *)
Lemma failures_stay_in_item (E : collaborators) (videos argv : list str) (typed : str)
    (f : frame) (w : world) :
  (∃ rows f', process_all E videos f = (Ok tt, f') ∧ row_URL <$> rows = videos ∧
     data_rows log_file (disk f') = data_rows log_file (disk f) ++ rows ∧
     exitosos f' + fallidos f' = exitosos f + fallidos f + length videos)
  ∧ (∀ url e,
       stage_failure E url (disk f) e ∨
       (∃ f1, item_body E url (Frame (disk f) None None (exitosos f) (fallidos f))
                = (Raise e, f1)) →
       ∃ r f', process_item E url f = (Ok tt, f') ∧
         data_rows log_file (disk f') = data_rows log_file (disk f) ++ [r] ∧
         row_URL r = url ∧ row_status r = lit "Error: " ++ exn_str e ∧
         exitosos f' = exitosos f ∧ fallidos f' = S (fallidos f))
  ∧ (∀ resolved_videos, resolved argv typed w = Ok resolved_videos →
       ∃ rows ok ko w', main E argv typed w = (Ok (ok, ko), w') ∧
         row_URL <$> rows = resolved_videos ∧ ok + ko = length resolved_videos ∧
         data_rows log_file w' = data_rows log_file w ++ rows)
  ∧ (∀ e w', main E argv typed w = (Raise e, w') →
       w' = w ∧ ∃ script csv, argv = [script; csv] ∧ extract_url csv w = (Raise e, w) ∧
         (is_ValidationError e = true ∨ exn_class_of e = AttributeError)).
Proof.
  split; [|split; [|split]].
  - destruct (process_all_outcome E videos f) as (rows & f' & Hrun & Hurls & _ & Hrows & _ & Hsum).
    by exists rows, f'.
  - intros url e Hfails.
    assert (∃ f1, item_body E url (Frame (disk f) None None (exitosos f) (fallidos f))
                    = (Raise e, f1)) as [f1 Hbody].
    { destruct Hfails as [Hstage|Hbody]; [|done].
      by apply (stage_failure_raises E url (Frame (disk f) None None (exitosos f) (fallidos f))). }
    destruct (process_item_outcome E url f) as (r & f' & Hrun & Hl & _ & Hurl & Hstatus).
    rewrite Hbody in Hstatus. destruct Hstatus as (Hstatus & Hx & Hy).
    exists r, f'. split; [done|].
    split; [apply (data_rows_add_row r (disk f) (disk f') Hl)|]. done.
  - intros resolved_videos Hres.
    assert (Hmain : main E argv typed w
                    = match process_all E resolved_videos (Frame w None None 0 0) with
                      | (Ok _, f) => (Ok (exitosos f, fallidos f), disk f)
                      | (Raise e, f) => (Raise e, disk f)
                      end).
    { unfold resolved in Hres. unfold main.
      destruct argv as [|script [|csv [|extra argv]]]; try (by injection Hres as <-).
      pose proof (extract_url_reads_only csv w) as Hsame.
      destruct (extract_url csv w) as [[urls|e] w1]; [|discriminate].
      simpl in Hsame, Hres. by simplify_eq. }
    destruct (process_all_outcome E resolved_videos (Frame w None None 0 0))
      as (rows & f' & Hrun & Hurls & _ & Hrows & _ & Hsum).
    rewrite Hrun in Hmain. exists rows, (exitosos f'), (fallidos f'), (disk f').
    split; [done|]. split; [done|]. split; [by simpl in Hsum|done].
  - intros e w' Hmain. pose proof (main_outcome E argv typed w) as Hout.
    rewrite Hmain in Hout. destruct Hout as (-> & script & csv & -> & Hurl).
    split; [done|]. exists script, csv. split; [done|]. split; [done|].
    destruct (extract_url_raises csv w w e Hurl) as [_ [?|[? _]]]; [by left | by right].
Qed.

(** C3.  An exception that is not an input error crosses the batch: when
    the table named by the argument has a url column that holds a number,
    [main] raises the [AttributeError] of [link.strip()], before the first
    item and with the disk as it was, whatever the collaborators are.  It is
    neither a [ValueError] nor a [FileNotFoundError], the two errors of the
    validation of the input. *)
Theorem attribute_error_crosses_the_batch (E : collaborators) (script csv typed : str)
    (w : world) (df : gmap str (list cell)) (column : list cell) :
  endswith csv (lit ".csv") = true →
  tables w !! csv = Some df → df !! lit "url" = Some column →
  Exists (λ c, is_textual c = false) column →
  ∃ e, main E [script; csv] typed w = (Raise e, w) ∧
       exn_class_of e = AttributeError ∧ is_ValidationError e = false.
Proof.
  intros Hext Hfile Hcol Hnum. unfold main, extract_url. rewrite Hext, Hfile, Hcol. simpl.
  pose proof (collect_urls_outcome column []) as Hloop.
  destruct (collect_urls column []) as [all|e].
  - destruct Hloop as [Htext _]. by destruct (textual_not_numeric column Htext).
  - destruct Hloop as [_ He]. exists e. split; [done|]. split; [done|].
    unfold is_ValidationError. by rewrite He.
Qed.

Lemma attribute_error_crosses_the_batch_witness :
  let w := World ∅ ∅ ∅ {[ lit "ids.csv" := {[ lit "url" := [Text (lit "https://a"); Number 7] ]} ]} in
  ∃ e, main all_succeed [lit "script.py"; lit "ids.csv"] [] w = (Raise e, w)
       ∧ exn_str e = lit "'int' object has no attribute 'strip'"
       ∧ is_ValidationError e = false.
Proof.
  intros w.
  destruct (attribute_error_crosses_the_batch all_succeed (lit "script.py") (lit "ids.csv") [] w
              {[ lit "url" := [Text (lit "https://a"); Number 7] ]}
              [Text (lit "https://a"); Number 7])
    as (e & Hmain & _ & Hclass); [by vm_compute | by vm_compute | by vm_compute | |].
  { apply Exists_cons_tl, Exists_cons_hd. done. }
  exists e. split; [exact Hmain|]. split; [|exact Hclass].
  assert (Hrun : main all_succeed [lit "script.py"; lit "ids.csv"] [] w
                 = (Raise (Exn AttributeError (lit "'int' object has no attribute 'strip'")), w))
    by (by vm_compute).
  rewrite Hrun in Hmain. by injection Hmain as <-.
Defined.

(** C1, on a failing input. One video; the download succeeds and leaves
    v.webm; ffmpeg exits with an error.  [main] ends normally with one
    failure, the log has the row of the error, and v.webm is still on the
    disk although its removal would have succeeded. *)
Theorem raw_file_left_after_failed_conversion :
  ∃ w, main ffmpeg_fails [lit "script.py"] (lit "https://youtu.be/x") empty_disk
         = (Ok (0, 1), w)
       ∧ files w = {[ lit "v.webm" ]}
       ∧ remove_error ffmpeg_fails (lit "v.webm") w = None
       ∧ ∃ r, data_rows log_file w = [r]
              ∧ row_status r = lit "Error: Command returned non-zero exit status 1.".
Proof.
  eexists. split; [by vm_compute|]. split; [by vm_compute|]. split; [done|].
  eexists. split; [by vm_compute|]. by vm_compute.
Qed.

(** With collaborators that all succeed the two files are removed. *)
Example artifacts_removed_on_success :
  ∃ w, main all_succeed [lit "script.py"] (lit "https://youtu.be/x") empty_disk
         = (Ok (1, 0), w)
       ∧ files w = ∅ ∧ is_Some (docs w !! lit "v.docx").
Proof. eexists. split; [by vm_compute|]. split; [by vm_compute|]. by eexists. Qed.

(** ** Cleanup *)

(** One step of [clean] on a path that is not empty and whose removal does
    not fail: the path is gone, and nothing else is. *)
Lemma clean_step_removes (E : collaborators) (path : str) (w : world) :
  path ≠ [] → remove_error E path w = None →
  clean_step E (Some path) w = (Ok tt, set_files (files w ∖ {[path]}) w).
Proof.
  intros Hpath Hremove.
  unfold clean_step, mbind, M_bind, get, try_except, os_remove, mret, M_ret.
  rewrite (bool_decide_eq_true_2 (path ≠ [])) by done. simpl.
  case_bool_decide as Hin.
  - by rewrite Hremove.
  - f_equal. destruct w as [fs ds ls ts]. unfold set_files. simpl in *.
    f_equal. apply set_eq. intros x. rewrite elem_of_difference, elem_of_singleton.
    split; [|tauto]. intros Hx. split; [done|]. by intros ->.
Qed.

Lemma clean_removes_both (E : collaborators) (i o : str) (w : world) :
  i ≠ [] → o ≠ [] → (∀ p w', remove_error E p w' = None) →
  clean E (Some i) (Some o) w = (Ok tt, set_files (files w ∖ {[i]} ∖ {[o]}) w).
Proof.
  intros Hi Ho Hremove. unfold clean. cbn [for_each]. unfold mbind at 1 2. unfold M_bind.
  rewrite (clean_step_removes E i w Hi (Hremove _ _)).
  rewrite (clean_step_removes E o _ Ho (Hremove _ _)). by destruct w.
Qed.

(** X3. [clean] is best effort: it never raises, it changes nothing but the set
    of media files, it adds no file, and the only files it removes are the
    two it was given. *)
Theorem clean_best_effort (E : collaborators) (i o : option str) (w : world) :
  ∃ fs, clean E i o w = (Ok tt, set_files fs w) ∧ fs ⊆ files w
        ∧ ∀ p, p ∈ files w → p ∉ fs → Some p = i ∨ Some p = o.
Proof.
  assert (Hone : ∀ (a : option str) (w : world), ∃ fs,
            clean_step E a w = (Ok tt, set_files fs w) ∧ fs ⊆ files w
            ∧ ∀ p, p ∈ files w → p ∉ fs → Some p = a).
  { intros [path|] w1.
    2:{ exists (files w1). split; [by destruct w1|]. split; [done|]. by intros p Hp []. }
    unfold clean_step, mbind, M_bind, get, try_except, os_remove, mret, M_ret.
    destruct (bool_decide (path ≠ []) && bool_decide (path ∈ files w1)).
    2:{ exists (files w1). split; [by destruct w1|]. split; [done|]. by intros p Hp []. }
    destruct (remove_error E path w1); simpl.
    { exists (files w1). split; [by destruct w1|]. split; [done|]. by intros p Hp []. }
    exists (files w1 ∖ {[path]}). split; [done|]. split.
    - intros p. rewrite elem_of_difference. tauto.
    - intros p Hp. rewrite elem_of_difference, elem_of_singleton. intros Hgone.
      destruct (decide (p = path)) as [->|]; [done|]. exfalso; apply Hgone; done. }
  unfold clean. cbn [for_each]. unfold mbind at 1 2. unfold M_bind.
  destruct (Hone i w) as (fs1 & -> & Hsub1 & Honly1).
  destruct (Hone o (set_files fs1 w)) as (fs2 & -> & Hsub2 & Honly2).
  exists fs2. split; [by destruct w|]. simpl in *. split; [by etrans|].
  intros p Hp Hgone. destruct (decide (p ∈ fs1)) as [Hin|Hout].
  - right. by apply Honly2.
  - left. by apply Honly1.
Qed.

(** X1. When the [try] block ends, by a return or by an exception, with the
    two variables assigned to paths that are not empty, and no removal fails,
    neither file is on the disk after the iteration. *)
Lemma artifacts_removed_when_assigned (E : collaborators) (url : str) (f : frame)
    (i o : str) :
  let body := item_body E url (Frame (disk f) None None (exitosos f) (fallidos f)) in
  input_file (body.2) = Some i → output_file (body.2) = Some o →
  i ≠ [] → o ≠ [] → (∀ p w, remove_error E p w = None) →
  files (disk (process_item E url f).2) = files (disk (body.2)) ∖ {[i]} ∖ {[o]}
  ∧ (i ∉ files (disk (process_item E url f).2))
  ∧ (o ∉ files (disk (process_item E url f).2)).
Proof.
  intros body Hin Hout Hi Ho Hremove.
  assert (Hfiles : files (disk (process_item E url f).2)
                   = files (disk (body.2)) ∖ {[i]} ∖ {[o]}).
  { unfold process_item. unfold mbind at 1. unfold M_bind, set_artifacts, modify.
    unfold try_finally, try_except, is_Exception. cbv beta iota. fold body.
    destruct body as [[[]|e] f1]; cbn [fst snd] in *; cbv beta iota.
    - unfold mbind, M_bind, get, in_world. rewrite Hin, Hout.
      by rewrite (clean_removes_both E i o (disk f1) Hi Ho Hremove).
    - unfold mbind at 1. unfold M_bind, in_world at 1. rewrite registro_unfold.
      cbn [registro_row]. unfold count_fallido, modify. cbn [disk input_file output_file].
      unfold mbind, M_bind, get, in_world. cbn [disk input_file output_file].
      rewrite Hin, Hout. by rewrite (clean_removes_both E i o _ Hi Ho Hremove). }
  rewrite Hfiles. split; [done|].
  rewrite !elem_of_difference, !elem_of_singleton. tauto.
Qed.

Lemma artifacts_removed_when_assigned_witness :
  files (disk (process_item all_succeed (lit "u") (Frame empty_disk None None 0 0)).2) = ∅.
Proof.
  destruct (artifacts_removed_when_assigned all_succeed (lit "u")
              (Frame empty_disk None None 0 0) (lit "v.webm") (lit "v.wav"))
    as (Hfiles & _); [by vm_compute | by vm_compute | done | done | done |].
  rewrite Hfiles. by vm_compute.
Defined.

Lemma normalize_failure_leaks_witness :
  files (disk (process_item ffmpeg_fails (lit "u") (Frame empty_disk None None 0 0)).2)
    = {[ lit "v.webm" ]}.
Proof.
  rewrite (normalize_failure_leaks ffmpeg_fails (lit "u") (Frame empty_disk None None 0 0)
             (sample_info (Some (PStr (lit "20081010")))) (lit "v") (lit "v.webm") []
             (Exn CalledProcessError (lit "Command returned non-zero exit status 1."))
             {[ lit "v.webm" ]} {[ lit "v.webm" ]}); [done | | done | done |].
  - by vm_compute.
  - by vm_compute.
Defined.

(** A video whose metadata has the key upload_date with the value [None]:
    the four stages succeed and the document is saved, then [len(None)]
    raises inside [registro]; the video is logged as an error and counted
    as a failure. *)
Lemma date_None_logged_as_error :
  let E := {| extract_info := λ _ w, (Ok (sample_info (Some PNone)), files w ∪ {[lit "v.webm"]});
              subprocess_run := subprocess_run all_succeed;
              transcribe := transcribe all_succeed;
              run_error := run_error all_succeed;
              save_error := save_error all_succeed;
              remove_error := remove_error all_succeed |} in
  ∃ w r, main E [lit "script.py"] (lit "https://youtu.be/x") empty_disk = (Ok (0, 1), w)
         ∧ is_Some (docs w !! lit "v.docx")
         ∧ data_rows log_file w = [r]
         ∧ row_status r = lit "Error: object of type 'NoneType' has no len()".
Proof.
  eexists. eexists. split; [by vm_compute|]. split; [by eexists|].
  split; [by vm_compute | by vm_compute].
Qed.

(** * Further properties *)

(** ** The title sanitizer: which titles give the same name *)

Lemma safe_title_fmap (title : str) :
  safe_title title = (λ c, if bool_decide (c ∈ reserved) then 95%N else c) <$> title.
Proof. unfold safe_title. change (lit "_") with [95%N]. apply re_sub_class_char. Qed.

Lemma sanitized_char_eq (c d : char) :
  (if bool_decide (c ∈ reserved) then 95%N else c)
    = (if bool_decide (d ∈ reserved) then 95%N else d)
  ↔ confusable c d.
Proof.
  unfold confusable. rewrite !elem_of_cons.
  pose proof underscore_not_reserved as Hu.
  destruct (decide (c ∈ reserved)) as [Hc|Hc]; destruct (decide (d ∈ reserved)) as [Hd|Hd];
    rewrite ?(bool_decide_eq_true_2 _ Hc), ?(bool_decide_eq_false_2 _ Hc),
            ?(bool_decide_eq_true_2 _ Hd), ?(bool_decide_eq_false_2 _ Hd).
  - split; [intros _; right; tauto | done].
  - split.
    + intros <-. right. tauto.
    + intros [->|[_ [->|?]]]; done.
  - split.
    + intros ->. right. tauto.
    + intros [->|[[->|?] _]]; done.
  - split; [intros ->; by left|]. intros [->|[[->|?] [->|?]]]; done.
Qed.

(** X4. Two titles are sanitized to the same name exactly when they have the
    same length and, at every position, either the same character or two
    characters among the nine reserved ones and the underscore; a title is
    left as it is exactly when it holds no reserved character; and the
    sanitizer works character by character, so it distributes over
    concatenation. *)
Theorem safe_title_collisions (a b : str) :
  (safe_title a = safe_title b ↔ Forall2 confusable a b)
  ∧ (safe_title a = a ↔ Forall (λ c, c ∉ reserved) a)
  ∧ safe_title (a ++ b) = safe_title a ++ safe_title b.
Proof.
  rewrite !safe_title_fmap. split; [|split].
  - revert b. induction a as [|c a IH]; intros [|d b]; simpl.
    + split; [constructor | done].
    + split; [discriminate | inversion 1].
    + split; [discriminate | inversion 1].
    + split.
      * intros [= Hcd Hab]. constructor; [by apply sanitized_char_eq | by apply IH].
      * inversion 1 as [|? ? ? ? Hcd Hab]; subst. f_equal; [by apply sanitized_char_eq|].
        by apply IH.
  - induction a as [|c a IH]; simpl.
    + split; [constructor | done].
    + split.
      * intros [= Hc Ha]. constructor; [|by apply IH].
        intros Hin. rewrite (bool_decide_eq_true_2 _ Hin) in Hc. subst c.
        by apply underscore_not_reserved.
      * inversion 1 as [|? ? Hc Ha]; subst. rewrite (bool_decide_eq_false_2 _ Hc).
        f_equal. by apply IH.
  - apply fmap_app.
Qed.

(** ** The timestamp formatter outside the non-negative times *)

(** X5. For every int below 3600, the negative ones included, the timestamp
    has two fields and is that of the int taken modulo 3600: a negative time
    raises nothing and shows no sign, it wraps around (one second before
    zero is 59:59).  A negative float is rounded when 3600 or 60 is added to
    its remainder: for the float [- 2 ^ -70] the two sums are 3600.0 and
    60.0, and the timestamp is 60:60. *)
Theorem format_timestamp_wraps_below_an_hour (n : Z) :
  (n < 3600)%Z →
  format_timestamp (Int n) = two_digits (n mod 3600 / 60) ++ lit ":" ++ two_digits (n mod 60)
  ∧ format_timestamp (Int n) = format_timestamp (Int (n mod 3600))
  ∧ format_timestamp (Float (- (1 # 2 ^ 70))) = lit "60:60".
Proof.
  intros Hlt.
  assert (Hform : ∀ m, (m < 3600)%Z →
            format_timestamp (Int m)
              = two_digits (m mod 3600 / 60) ++ lit ":" ++ two_digits (m mod 60)).
  { intros m Hm. unfold format_timestamp. cbn [int floordiv pymod].
    pose proof (Z.mod_pos_bound m 60 ltac:(lia)).
    pose proof (Z.mod_pos_bound m 3600 ltac:(lia)).
    rewrite (format_02d_below_100 (m mod 60)) by lia.
    rewrite (format_02d_below_100 (m mod 3600 / 60))
      by (split; [apply Z.div_pos; lia | apply Z.div_lt_upper_bound; lia]).
    assert (m / 3600 <= 0)%Z by (Z.div_mod_to_equations; lia).
    destruct (Z.ltb_spec 0 (m / 3600)); [lia|done]. }
  split; [by apply Hform|]. split; [|by vm_compute].
  pose proof (Z.mod_pos_bound n 3600 ltac:(lia)).
  rewrite (Hform n Hlt), (Hform (n mod 3600)%Z) by lia.
  rewrite Z.mod_mod by lia. do 3 f_equal. Z.div_mod_to_equations; lia.
Qed.

Lemma format_timestamp_wraps_below_an_hour_witness :
  format_timestamp (Int (-1)) = lit "59:59".
Proof.
  destruct (format_timestamp_wraps_below_an_hour (-1) ltac:(lia)) as [H _].
  rewrite H. by vm_compute.
Defined.

(** ** Trimming *)

(** [lstrip] drops a prefix of whitespace and stops at the first character
    that is not whitespace. *)
Lemma lstrip_spec (s : str) :
  (∃ l, s = l ++ lstrip s ∧ Forall (λ c, isspace c = true) l)
  ∧ (∀ c, head (lstrip s) = Some c → isspace c = false).
Proof.
  induction s as [|c s [(l & Hl & Hsp) Hhead]]; simpl.
  - split; [by exists [] | done].
  - destruct (isspace c) eqn:Hc.
    + split; [|done]. exists (c :: l). split; [by rewrite Hl at 1 | by constructor].
    + split; [by exists [] | by intros c' [= <-]].
Qed.

Lemma lstrip_fixed (s : str) :
  (∀ c, head s = Some c → isspace c = false) → lstrip s = s.
Proof. destruct s as [|c s]; [done|]. intros H. simpl. by rewrite (H c). Qed.

Lemma rstrip_spec (s : str) :
  (∃ r, s = rstrip s ++ r ∧ Forall (λ c, isspace c = true) r)
  ∧ (∀ c, last (rstrip s) = Some c → isspace c = false).
Proof.
  unfold rstrip. destruct (lstrip_spec (reverse s)) as [(l & Hl & Hsp) Hhead]. split.
  - exists (reverse l). split; [|by apply Forall_reverse].
    rewrite <- reverse_app, <- Hl. by rewrite reverse_involutive.
  - intros c. rewrite last_reverse. apply Hhead.
Qed.

(** [strip] keeps a stretch of the text that neither starts nor ends with
    whitespace, and trimming a trimmed text changes nothing. *)
Lemma strip_spec (s : str) :
  (∀ c, head (strip s) = Some c → isspace c = false)
  ∧ (∀ c, last (strip s) = Some c → isspace c = false)
  ∧ strip (strip s) = strip s.
Proof.
  unfold strip.
  destruct (lstrip_spec s) as [_ Hhead].
  destruct (rstrip_spec (lstrip s)) as [(r & Hr & _) Hlast].
  assert (Hh : ∀ c, head (rstrip (lstrip s)) = Some c → isspace c = false).
  { intros c Hc. apply Hhead. rewrite Hr. destruct (rstrip (lstrip s)); [done|exact Hc]. }
  split; [done|]. split; [done|].
  rewrite (lstrip_fixed _ Hh). unfold rstrip at 1.
  rewrite lstrip_fixed; [by rewrite reverse_involutive|].
  intros c. rewrite head_reverse. apply Hlast.
Qed.

(** ** The input resolver: what a returned list is *)

Lemma trimmed_urls_trimmed (column : list cell) :
  Forall (λ u, u ≠ [] ∧ strip u = u) (trimmed_urls column).
Proof.
  unfold trimmed_urls. apply Forall_forall. intros u.
  rewrite list_elem_of_filter, list_elem_of_fmap. intros (Hne & s & -> & _).
  split; [done|]. apply strip_spec.
Qed.

(** X6. When [extract_url] returns a list, the path ends in .csv, the table
    and its url column exist and hold no number, the disk is as it was, and
    the list is not empty: it is the entries of the column, trimmed, without
    the blank and missing ones, in the order of the rows.  Each URL of the
    list is not empty and neither starts nor ends with whitespace. *)
Theorem extract_url_returns_trimmed (csv : str) (w w' : world) (urls : list str) :
  extract_url csv w = (Ok urls, w') →
  w' = w ∧ endswith csv (lit ".csv") = true ∧ urls ≠ [] ∧
  Forall (λ u, u ≠ [] ∧ strip u = u) urls ∧
  ∃ df column, tables w !! csv = Some df ∧ df !! lit "url" = Some column ∧
    Forall (λ c, is_textual c = true) column ∧ urls = trimmed_urls column.
Proof.
  unfold extract_url.
  destruct (endswith csv (lit ".csv")); simpl; [|discriminate].
  destruct (tables w !! csv) as [df|] eqn:Hfile; [|discriminate].
  destruct (df !! lit "url") as [column|] eqn:Hcol; [|discriminate].
  pose proof (collect_urls_outcome column []) as Hloop.
  destruct (collect_urls column []) as [[|u all]|e]; [discriminate| |discriminate].
  destruct Hloop as [Htext Hall]. simpl in Hall. intros [= <- <-].
  split; [done|]. split; [done|]. split; [done|].
  split; [rewrite Hall; apply trimmed_urls_trimmed|].
  exists df, column. repeat split; done.
Qed.

Lemma extract_url_returns_trimmed_witness :
  Forall (λ u, u ≠ [] ∧ strip u = u) [lit "https://a"; lit "https://b"].
Proof.
  apply (extract_url_returns_trimmed (lit "videos.csv") disk_with_table disk_with_table).
  by vm_compute.
Defined.

(** X7. When the table has a url column that holds a number (a column that
    pandas read as numeric), [extract_url] raises an [AttributeError],
    whatever else the column holds, and not one of its own [ValueError]s: the
    entry passes the two tests of the loop and has no method [strip]. *)
Theorem extract_url_number_raises (csv : str) (w : world) (df : gmap str (list cell))
    (column : list cell) :
  endswith csv (lit ".csv") = true →
  tables w !! csv = Some df → df !! lit "url" = Some column →
  Exists (λ c, is_textual c = false) column →
  ∃ e, extract_url csv w = (Raise e, w) ∧ exn_class_of e = AttributeError.
Proof.
  intros Hext Hfile Hcol Hnum. unfold extract_url. rewrite Hext, Hfile, Hcol. simpl.
  pose proof (collect_urls_outcome column []) as Hloop.
  destruct (collect_urls column []) as [all|e].
  - destruct Hloop as [Htext _]. exfalso.
    apply Exists_exists in Hnum as (c & Hin & Hc).
    rewrite Forall_forall in Htext. specialize (Htext c Hin). congruence.
  - destruct Hloop as [_ He]. by exists e.
Qed.

Lemma extract_url_number_raises_witness :
  let w := World ∅ ∅ ∅ {[ lit "ids.csv" := {[ lit "url" := [Text (lit "https://a"); Number 7] ]} ]} in
  ∃ e, extract_url (lit "ids.csv") w = (Raise e, w) ∧ exn_class_of e = AttributeError.
Proof.
  apply (extract_url_number_raises (lit "ids.csv") _
           {[ lit "url" := [Text (lit "https://a"); Number 7] ]}
           [Text (lit "https://a"); Number 7]); [by vm_compute..|].
  apply Exists_cons_tl, Exists_cons_hd. done.
Defined.

(** ** The audit logger: when it raises and what it touches *)

(** X8. [registro] builds its row before it touches the disk.  When the
    metadata has an upload date that is not a text (for instance [None]),
    the row cannot be built: [len] raises a [TypeError] and nothing is
    written.  In every other case, the failure path included, the row is
    built and added to the file it was given, for the URL it was given (the
    writing itself is taken to succeed), and nothing else changes: the media
    files, the documents, and the CSV files at every other path, as logs and
    as tables, are as they were. *)
Theorem registro_outcome (info : Info + exn) (url output_csv : str) (w : world) :
  if date_without_len info
  then ∃ e, registro info url output_csv w = (Raise e, w) ∧ exn_class_of e = TypeError
  else ∃ r w', registro info url output_csv w = (Ok tt, w') ∧
         files w' = files w ∧ docs w' = docs w ∧
         (∀ p, p ≠ output_csv →
            logs w' !! p = logs w !! p ∧ tables w' !! p = tables w !! p) ∧
         logs w' !! output_csv = Some (lines_before output_csv w ++ [Row r]) ∧
         row_URL r = url.
Proof.
  rewrite registro_unfold. unfold date_without_len, registro_row.
  assert (Hok : ∀ r : row, row_URL r = url →
    ∃ r' w', (Ok tt, set_logs (<[output_csv := lines_before output_csv w ++ [Row r]]> (logs w)) w)
               = (Ok tt, w') ∧
      files w' = files w ∧ docs w' = docs w ∧
      (∀ p, p ≠ output_csv →
         logs w' !! p = logs w !! p ∧ tables w' !! p = tables w !! p) ∧
      logs w' !! output_csv = Some (lines_before output_csv w ++ [Row r']) ∧
      row_URL r' = url).
  { intros r Hr. exists r. eexists. split; [reflexivity|]. simpl.
    split; [done|]. split; [done|].
    split; [by intros p Hp; rewrite lookup_insert_ne|].
    split; [by rewrite lookup_insert_eq | done]. }
  destruct info as [i|e]; [|by apply Hok].
  destruct (info_upload_date i) as [[|s| |]|]; cbn [negb has_len].
  - by eexists.
  - change (get_or_NA (Some (PStr s))) with (PStr s). rewrite format_upload_date_text.
    by apply Hok.
  - by eexists.
  - by eexists.
  - by apply Hok.
Qed.

(** ** Cleanup: a failed removal *)

(** X9. When the removal of the first file fails, [clean] still removes the
    second one and returns normally: the first file stays on the disk, the
    second is gone, nothing else changes. *)
Theorem clean_continues_after_failed_removal (E : collaborators) (i o msg : str) (w : world) :
  i ≠ [] → o ≠ [] → i ≠ o → i ∈ files w →
  remove_error E i w = Some msg → remove_error E o w = None →
  clean E (Some i) (Some o) w = (Ok tt, set_files (files w ∖ {[o]}) w)
  ∧ i ∈ files w ∖ {[o]} ∧ o ∉ files w ∖ {[o]}.
Proof.
  intros Hi Ho Hio Hin Hfail Hok.
  split; [|rewrite !elem_of_difference, !elem_of_singleton; tauto].
  unfold clean. cbn [for_each]. unfold mbind at 1 2. unfold M_bind.
  assert (Hfirst : clean_step E (Some i) w = (Ok tt, w)).
  { unfold clean_step, mbind, M_bind, get, try_except, os_remove, mret, M_ret.
    rewrite (bool_decide_eq_true_2 (i ≠ [])), (bool_decide_eq_true_2 (i ∈ files w)) by done.
    simpl. by rewrite Hfail. }
  rewrite Hfirst, (clean_step_removes E o w Ho Hok). done.
Qed.

Lemma clean_continues_after_failed_removal_witness :
  let E := {| extract_info := extract_info all_succeed;
              subprocess_run := subprocess_run all_succeed;
              transcribe := transcribe all_succeed;
              run_error := run_error all_succeed;
              save_error := save_error all_succeed;
              remove_error := λ p _, if bool_decide (p = lit "v.webm")
                                     then Some (lit "Permission denied") else None |} in
  files (clean E (Some (lit "v.webm")) (Some (lit "v.wav"))
           (World {[ lit "v.webm"; lit "v.wav" ]} ∅ ∅ ∅)).2 = {[ lit "v.webm" ]}.
Proof.
  intros E.
  destruct (clean_continues_after_failed_removal E (lit "v.webm") (lit "v.wav")
              (lit "Permission denied") (World {[ lit "v.webm"; lit "v.wav" ]} ∅ ∅ ∅))
    as [Hrun _]; [done | done | done | by vm_compute | by vm_compute | by vm_compute |].
  rewrite Hrun. by vm_compute.
Defined.

(** ** The loop: the counters and the log *)

Lemma error_status_is_not_success (message : str) : lit "Error: " ++ message ≠ lit "Success".
Proof. intros H. apply (f_equal head) in H. by vm_compute in H. Qed.

Lemma successes_cons (r : row) (rows : list row) :
  successes (r :: rows)
    = (if bool_decide (row_status r = lit "Success") then 1 else 0) + successes rows.
Proof. unfold successes. rewrite filter_cons. case_bool_decide; by case_decide. Qed.

(** The loop, with what it leaves alone and with its two counters told by
    the rows it wrote. *)
Lemma process_all_counts (E : collaborators) (videos : list str) (f : frame) :
  ∃ rows f', process_all E videos f = (Ok tt, f') ∧
    row_URL <$> rows = videos ∧
    data_rows log_file (disk f') = data_rows log_file (disk f) ++ rows ∧
    exitosos f' = exitosos f + successes rows ∧
    fallidos f' = fallidos f + (length rows - successes rows) ∧
    successes rows ≤ length rows ∧
    tables (disk f') = tables (disk f) ∧
    (∀ p, p ≠ log_file → logs (disk f') !! p = logs (disk f) !! p).
Proof.
  revert f. induction videos as [|url rest IH]; intros f.
  - exists [], f. simpl. rewrite app_nil_r. unfold successes. simpl. repeat split; lia.
  - destruct (process_item_outcome E url f) as (r & f1 & Hrun & Hl & Ht & Hurl & Hcount).
    destruct (IH f1) as (rows & f' & Hrest & Hurls & Hrows & Hx & Hy & Hle & Ht' & Hother).
    destruct (data_rows_add_row r (disk f) (disk f1) Hl) as [Hdata _].
    exists (r :: rows), f'. unfold process_all in *. cbn [for_each].
    unfold mbind at 1. unfold M_bind. rewrite Hrun, Hrest. rewrite successes_cons.
    split; [done|]. split; [by rewrite fmap_cons, Hurl, Hurls|].
    split; [rewrite Hrows, Hdata; by rewrite <- app_assoc|].
    assert (Hother' : ∀ p, p ≠ log_file → logs (disk f') !! p = logs (disk f) !! p).
    { intros p Hp. rewrite (Hother p Hp), Hl. by rewrite lookup_insert_ne. }
    destruct (item_body E url _).1 as [[]|e].
    + destruct Hcount as (Hstatus & Hx1 & Hy1).
      rewrite (bool_decide_eq_true_2 _ Hstatus). simpl.
      repeat split; [lia | lia | lia | congruence | done].
    + destruct Hcount as (Hstatus & Hx1 & Hy1).
      rewrite bool_decide_eq_false_2
        by (rewrite Hstatus; apply error_status_is_not_success).
      simpl. repeat split; [lia | lia | lia | congruence | done].
Qed.

(** The loop as [main] runs it, from counters at zero. *)
Lemma main_loop_result (E : collaborators) (videos : list str) (w : world) :
  ∃ rows w',
    match process_all E videos (Frame w None None 0 0) with
    | (Ok _, f) => (Ok (exitosos f, fallidos f), disk f)
    | (Raise e, f) => (Raise e, disk f)
    end = (Ok (successes rows, length rows - successes rows), w') ∧
    row_URL <$> rows = videos ∧
    data_rows log_file w' = data_rows log_file w ++ rows ∧
    tables w' = tables w ∧
    (∀ p, p ≠ log_file → logs w' !! p = logs w !! p).
Proof.
  destruct (process_all_counts E videos (Frame w None None 0 0))
    as (rows & f' & -> & Hurls & Hrows & Hx & Hy & _ & Ht & Hother).
  exists rows, (disk f'). simpl in *. rewrite Hx, Hy. done.
Qed.

(** X10. The summary that [main] prints agrees with the log: when the list
    of videos is resolved, [main] returns normally, the rows it has added to
    transcriptions_log.csv are those of the videos, in their order, after the
    rows the log had; the count of successes is the number of added rows with
    the status Success and the count of failures is the number of the other
    added rows.  The CSV files at every other path, as logs and as tables,
    are as they were.  When the resolution raises, [main] raises the same
    exception and the disk is as it was. *)
Theorem main_summary_matches_log (E : collaborators) (argv : list str) (typed : str)
    (w : world) :
  match resolved argv typed w with
  | Ok videos =>
      ∃ rows w', main E argv typed w = (Ok (successes rows, length rows - successes rows), w') ∧
        row_URL <$> rows = videos ∧
        data_rows log_file w' = data_rows log_file w ++ rows ∧
        (∀ p, p ≠ log_file →
           logs w' !! p = logs w !! p ∧ tables w' !! p = tables w !! p)
  | Raise e => main E argv typed w = (Raise e, w)
  end.
Proof.
  assert (Hloop : ∀ videos, ∃ rows w',
            match process_all E videos (Frame w None None 0 0) with
            | (Ok _, f) => (Ok (exitosos f, fallidos f), disk f)
            | (Raise e, f) => (Raise e, disk f)
            end = (Ok (successes rows, length rows - successes rows), w') ∧
            row_URL <$> rows = videos ∧
            data_rows log_file w' = data_rows log_file w ++ rows ∧
            (∀ p, p ≠ log_file →
               logs w' !! p = logs w !! p ∧ tables w' !! p = tables w !! p)).
  { intros videos.
    destruct (main_loop_result E videos w) as (rows & w' & Hrun & Hurls & Hrows & Ht & Hl).
    exists rows, w'. split; [done|]. split; [done|]. split; [done|].
    intros p Hp. split; [by apply Hl | by rewrite Ht]. }
  unfold resolved, main.
  destruct argv as [|script [|csv [|extra argv]]]; try apply Hloop.
  pose proof (extract_url_reads_only csv w) as Hsame.
  destruct (extract_url csv w) as [[videos|e] w1]; simpl in Hsame |- *; subst w1; [|done].
  apply Hloop.
Qed.

(** X11. Without exactly one argument, [main] handles the line typed by the
    user, whatever it is (an empty line too, and whatever the arguments are):
    it never raises, and it adds exactly one row, whose URL is the typed
    line. *)
Theorem main_interactive (E : collaborators) (argv : list str) (typed : str) (w : world) :
  length argv ≠ 2 →
  ∃ r w' ok ko, main E argv typed w = (Ok (ok, ko), w') ∧ ok + ko = 1 ∧
    data_rows log_file w' = data_rows log_file w ++ [r] ∧ row_URL r = typed.
Proof.
  intros Hlen.
  assert (Hmain : main E argv typed w
                  = match process_all E [typed] (Frame w None None 0 0) with
                    | (Ok _, f) => (Ok (exitosos f, fallidos f), disk f)
                    | (Raise e, f) => (Raise e, disk f)
                    end).
  { unfold main. by destruct argv as [|script [|csv [|extra argv]]]. }
  destruct (main_loop_result E [typed] w) as (rows & w' & Hrun & Hurls & Hrows & _).
  rewrite <- Hmain in Hrun.
  destruct rows as [|r [|r' rows]]; try discriminate Hurls.
  injection Hurls as Hurl.
  exists r, w', (successes [r]), (length [r] - successes [r]).
  split; [done|]. split; [|done].
  rewrite successes_cons. unfold successes. simpl. case_bool_decide; lia.
Qed.

Lemma main_interactive_witness :
  ∃ r w' ok ko, main ffmpeg_fails [lit "script.py"] [] empty_disk = (Ok (ok, ko), w')
    ∧ ok + ko = 1 ∧ data_rows log_file w' = data_rows log_file empty_disk ++ [r]
    ∧ row_URL r = [].
Proof. apply (main_interactive ffmpeg_fails [lit "script.py"] [] empty_disk). by vm_compute. Defined.

(** X12. With one argument that names a table whose url column holds texts
    and missing values, not all blank, [main] handles exactly the trimmed
    entries of the column that are not blank, in the order of the rows: one
    row each, whatever the stages do. *)
Theorem main_processes_the_table (E : collaborators) (script csv typed : str) (w : world)
    (df : gmap str (list cell)) (column : list cell) :
  endswith csv (lit ".csv") = true →
  tables w !! csv = Some df → df !! lit "url" = Some column →
  Forall (λ c, is_textual c = true) column →
  trimmed_urls column ≠ [] →
  ∃ rows w' ok ko, main E [script; csv] typed w = (Ok (ok, ko), w') ∧
    ok + ko = length (trimmed_urls column) ∧
    row_URL <$> rows = trimmed_urls column ∧
    data_rows log_file w' = data_rows log_file w ++ rows.
Proof.
  intros Hext Hfile Hcol Htext Hsome.
  assert (Hres : extract_url csv w = (Ok (trimmed_urls column), w)).
  { unfold extract_url. rewrite Hext, Hfile, Hcol. simpl.
    rewrite (collect_urls_textual column [] Htext). simpl.
    by destruct (trimmed_urls column). }
  destruct (main_loop_result E (trimmed_urls column) w) as (rows & w' & Hrun & Hurls & Hrows & _).
  assert (Hmain : main E [script; csv] typed w
                  = (Ok (successes rows, length rows - successes rows), w')).
  { unfold main. rewrite Hres. exact Hrun. }
  clear Hrun. rename Hmain into Hrun.
  exists rows, w', (successes rows), (length rows - successes rows).
  split; [done|]. split; [|done].
  rewrite <- Hurls, length_fmap.
  assert (successes rows ≤ length rows); [|lia].
  unfold successes. apply length_filter.
Qed.

Lemma main_processes_the_table_witness :
  ∃ rows w' ok ko,
    main ffmpeg_fails [lit "script.py"; lit "videos.csv"] [] disk_with_table = (Ok (ok, ko), w')
    ∧ ok + ko = 2 ∧ row_URL <$> rows = [lit "https://a"; lit "https://b"].
Proof.
  destruct (main_processes_the_table ffmpeg_fails (lit "script.py") (lit "videos.csv") []
              disk_with_table sample_table
              [NaN; Text (lit "   "); Text (lit " https://a "); Text (lit "https://b")])
    as (rows & w' & ok & ko & Hrun & Hsum & Hurls & _);
    [by vm_compute | by vm_compute | by vm_compute | repeat constructor | by vm_compute |].
  exists rows, w', ok, ko. split; [exact Hrun|]. split; [exact Hsum | exact Hurls].
Defined.

(** ** One iteration, from the outcome of its [try] block *)

(** The iteration after a block that returned: only [clean] is left to run. *)
Lemma process_item_after_return (E : collaborators) (url : str) (f f1 : frame) :
  item_body E url (Frame (disk f) None None (exitosos f) (fallidos f)) = (Ok tt, f1) →
  ∃ fs, process_item E url f
        = (Ok tt, Frame (set_files fs (disk f1)) (input_file f1) (output_file f1)
                        (exitosos f1) (fallidos f1)).
Proof.
  intros Hbody. unfold process_item. unfold mbind at 1. unfold M_bind, set_artifacts, modify.
  unfold try_finally, try_except, is_Exception. rewrite Hbody. cbv beta iota.
  unfold mbind, M_bind, get, in_world.
  destruct (clean_returns E (input_file f1) (output_file f1) (disk f1)) as [fs ->].
  by exists fs.
Qed.

(** The iteration after a block that raised: the row of the error, the
    counter of the failures, then [clean]. *)
Lemma process_item_after_raise (E : collaborators) (url : str) (f f1 : frame) (e : exn) :
  item_body E url (Frame (disk f) None None (exitosos f) (fallidos f)) = (Raise e, f1) →
  ∃ fs r, row_status r = lit "Error: " ++ exn_str e ∧ row_URL r = url ∧
    process_item E url f
      = (Ok tt,
         Frame (set_files fs
                  (set_logs (<[log_file := lines_before log_file (disk f1) ++ [Row r]]>
                               (logs (disk f1))) (disk f1)))
               (input_file f1) (output_file f1) (exitosos f1) (S (fallidos f1))).
Proof.
  intros Hbody. unfold process_item. unfold mbind at 1. unfold M_bind, set_artifacts, modify.
  unfold try_finally, try_except, is_Exception. rewrite Hbody. cbv beta iota.
  unfold mbind at 1. unfold M_bind, in_world at 1. rewrite registro_unfold.
  cbn [registro_row]. unfold count_fallido, modify. cbn [disk input_file output_file].
  unfold mbind, M_bind, get, in_world. cbn [disk input_file output_file exitosos fallidos].
  match goal with |- context [clean E ?i ?o ?w] =>
    destruct (clean_returns E i o w) as [fs ->] end.
  eexists fs, _. split; [|split; [|reflexivity]]; done.
Qed.

Section Stages.
Variables (E : collaborators) (url : str) (f : frame) (info : Info).
Variables (title path : str) (paths : list str) (result : Result) (doc : document).
Variables (fs fs' : gset str).

Hypothesis Hdownload : extract_info E url (disk f) = (Ok info, fs).
Hypothesis Htitle : info_title info = Some (PStr title).
Hypothesis Hpath : info_requested_downloads info = Some (path :: paths).
Hypothesis Hffmpeg :
  subprocess_run E (comando path (safe_title title ++ lit ".wav")) (set_files fs (disk f))
    = (Ok tt, fs').
Hypothesis Hwhisper :
  transcribe E (safe_title title ++ lit ".wav") (set_files fs' (set_files fs (disk f)))
    = Ok result.
Hypothesis Hbuild : build_document E result = Ok doc.
Hypothesis Hsave :
  save_error E (safe_title title ++ lit ".docx") (set_files fs' (set_files fs (disk f))) = None.

(** The [try] block after four stages that succeeded: the document is saved
    and the outcome is that of the row of the success. *)
Lemma item_body_after_stages :
  item_body E url f
  = match registro_row (inl info) url with
    | Ok r =>
        (Ok tt,
         Frame (World fs'
                  (<[safe_title title ++ lit ".docx" := doc]> (docs (disk f)))
                  (<[log_file := lines_before log_file (disk f) ++ [Row r]]> (logs (disk f)))
                  (tables (disk f)))
               (Some path) (Some (safe_title title ++ lit ".wav"))
               (S (exitosos f)) (fallidos f))
    | Raise e =>
        (Raise e,
         Frame (World fs'
                  (<[safe_title title ++ lit ".docx" := doc]> (docs (disk f)))
                  (logs (disk f)) (tables (disk f)))
               (Some path) (Some (safe_title title ++ lit ".wav"))
               (exitosos f) (fallidos f))
    end.
Proof using All.
  unfold item_body, mbind, M_bind, in_world, download_video, convert_to_wav, run_checked,
    lift_res, getitem_title, downloaded_filepath, first_50, re_sub_title, mbind, M_bind,
    set_artifacts, modify, mret, M_ret, word, count_exitoso.
  rewrite Hdownload. cbn [disk]. rewrite Htitle, Hpath, Hffmpeg. cbn [disk]. rewrite Hwhisper.
  cbn [disk]. rewrite Hbuild, Hsave. cbn [disk input_file output_file exitosos fallidos].
  rewrite registro_unfold. by destruct (registro_row (inl info) url).
Qed.
End Stages.

Lemma registro_row_success (info : Info) (url : str) (r : row) :
  registro_row (inl info) url = Ok r → row_status r = lit "Success" ∧ row_URL r = url.
Proof.
  unfold registro_row.
  destruct (format_upload_date (get_or_NA (info_upload_date info))); simpl; [|discriminate].
  by intros [= <-].
Qed.

Lemma registro_row_date_without_len (info : Info) (url : str) :
  date_without_len (inl info) = true →
  ∃ e, registro_row (inl info) url = Raise e ∧ exn_class_of e = TypeError.
Proof.
  unfold date_without_len, registro_row.
  destruct (info_upload_date info) as [[|s| |]|]; simpl; try discriminate; intros _; by eexists.
Qed.

Lemma sanitized_name_has_no_reserved (title extension : str) :
  Forall (λ c, c ∉ reserved) extension →
  Forall (λ c, c ∉ reserved) (safe_title title ++ extension).
Proof.
  intros Hext. apply Forall_app. split; [|done].
  rewrite safe_title_fmap. apply Forall_fmap, Forall_forall. intros c _. simpl.
  case_bool_decide; [apply underscore_not_reserved | done].
Qed.

(** X13. When the four stages succeed (the document is built, python-docx
    refusing none of its texts, and saved) for a video whose metadata has a
    text as title, a downloaded file and a date that [registro] can format,
    the iteration returns with the document of the result saved under the
    sanitized title followed by .docx (a name without reserved characters,
    replacing any document of that name), with the row of the success added
    to the log, and with one more success counted. *)
Theorem successful_item_is_saved_and_logged (E : collaborators) (url : str) (f : frame)
    (info : Info) (title path : str) (paths : list str) (result : Result) (doc : document)
    (fs fs' : gset str) (r : row) :
  extract_info E url (disk f) = (Ok info, fs) →
  info_title info = Some (PStr title) →
  info_requested_downloads info = Some (path :: paths) →
  subprocess_run E (comando path (safe_title title ++ lit ".wav")) (set_files fs (disk f))
    = (Ok tt, fs') →
  transcribe E (safe_title title ++ lit ".wav") (set_files fs' (set_files fs (disk f)))
    = Ok result →
  build_document E result = Ok doc →
  save_error E (safe_title title ++ lit ".docx") (set_files fs' (set_files fs (disk f))) = None →
  registro_row (inl info) url = Ok r →
  ∃ f', process_item E url f = (Ok tt, f') ∧
    doc = word_document result ∧
    docs (disk f') = <[safe_title title ++ lit ".docx" := doc]> (docs (disk f)) ∧
    Forall (λ c, c ∉ reserved) (safe_title title ++ lit ".docx") ∧
    logs (disk f') = <[log_file := lines_before log_file (disk f) ++ [Row r]]> (logs (disk f)) ∧
    row_status r = lit "Success" ∧ row_URL r = url ∧
    exitosos f' = S (exitosos f) ∧ fallidos f' = fallidos f.
Proof.
  intros Hdl Htitle Hpath Hrun Hwhisper Hbuild Hsave Hrow.
  pose proof (item_body_after_stages E url
                (Frame (disk f) None None (exitosos f) (fallidos f))
                info title path paths result doc fs fs'
                Hdl Htitle Hpath Hrun Hwhisper Hbuild Hsave)
    as Hbody.
  rewrite Hrow in Hbody. cbn [disk exitosos fallidos] in Hbody.
  destruct (process_item_after_return E url f _ Hbody) as [fs5 ->].
  destruct (registro_row_success info url r Hrow) as [Hstatus Hurl].
  eexists. split; [reflexivity|]. cbn [disk docs logs set_files exitosos fallidos].
  split; [by apply (build_document_returns E)|]. split; [done|]. split; [|done].
  apply sanitized_name_has_no_reserved, (bool_decide_eq_true_1 _). by vm_compute.
Qed.

Lemma successful_item_is_saved_and_logged_witness :
  ∃ f', process_item all_succeed (lit "u") (Frame empty_disk None None 0 0) = (Ok tt, f')
        ∧ is_Some (docs (disk f') !! lit "v.docx") ∧ exitosos f' = 1.
Proof.
  destruct (registro_row (inl (sample_info (Some (PStr (lit "20081010"))))) (lit "u"))
    as [r|e] eqn:Hrow; [|by vm_compute in Hrow].
  destruct (successful_item_is_saved_and_logged all_succeed (lit "u")
              (Frame empty_disk None None 0 0) (sample_info (Some (PStr (lit "20081010"))))
              (lit "v") (lit "v.webm") []
              (sample_result (Some [{| seg_start := 0; seg_end := 2.5;
                                       seg_text := lit " hola " |}]))
              (word_document (sample_result (Some [{| seg_start := 0; seg_end := 2.5;
                                                      seg_text := lit " hola " |}])))
              {[ lit "v.webm" ]} {[ lit "v.webm"; lit "v.wav" ]} r)
    as (f' & Hrun & _ & Hdocs & _ & _ & _ & _ & Hcount & _);
    [by vm_compute | done | done | by vm_compute | by vm_compute | by vm_compute | done
    | exact Hrow |].
  exists f'. split; [exact Hrun|]. split; [|exact Hcount].
  rewrite Hdocs. change (safe_title (lit "v") ++ lit ".docx") with (lit "v.docx").
  rewrite lookup_insert_eq. by eexists.
Defined.

(** X14. When the four stages succeed (the document is built and saved) but
    the metadata has an upload date that is not a text (yt-dlp gives [None]
    for some videos), the transcript is saved all the same, and then
    [registro] raises: the video is logged with the status of that
    [TypeError] and counted as a failure. *)
Theorem date_without_len_fails_after_saving (E : collaborators) (url : str) (f : frame)
    (info : Info) (title path : str) (paths : list str) (result : Result) (doc : document)
    (fs fs' : gset str) :
  extract_info E url (disk f) = (Ok info, fs) →
  info_title info = Some (PStr title) →
  info_requested_downloads info = Some (path :: paths) →
  subprocess_run E (comando path (safe_title title ++ lit ".wav")) (set_files fs (disk f))
    = (Ok tt, fs') →
  transcribe E (safe_title title ++ lit ".wav") (set_files fs' (set_files fs (disk f)))
    = Ok result →
  build_document E result = Ok doc →
  save_error E (safe_title title ++ lit ".docx") (set_files fs' (set_files fs (disk f))) = None →
  date_without_len (inl info) = true →
  ∃ f' e r, process_item E url f = (Ok tt, f') ∧
    doc = word_document result ∧
    docs (disk f') = <[safe_title title ++ lit ".docx" := doc]> (docs (disk f)) ∧
    logs (disk f') = <[log_file := lines_before log_file (disk f) ++ [Row r]]> (logs (disk f)) ∧
    exn_class_of e = TypeError ∧ row_status r = lit "Error: " ++ exn_str e ∧ row_URL r = url ∧
    exitosos f' = exitosos f ∧ fallidos f' = S (fallidos f).
Proof.
  intros Hdl Htitle Hpath Hrun Hwhisper Hbuild Hsave Hdate.
  pose proof (item_body_after_stages E url
                (Frame (disk f) None None (exitosos f) (fallidos f))
                info title path paths result doc fs fs'
                Hdl Htitle Hpath Hrun Hwhisper Hbuild Hsave)
    as Hbody.
  destruct (registro_row_date_without_len info url Hdate) as (e & Hrow & Hclass).
  rewrite Hrow in Hbody. cbn [disk exitosos fallidos] in Hbody.
  destruct (process_item_after_raise E url f _ e Hbody) as (fs5 & r & Hstatus & Hurl & ->).
  eexists. exists e, r. split; [reflexivity|].
  split; [by apply (build_document_returns E)|].
  cbn [disk docs logs set_files set_logs exitosos fallidos]. unfold lines_before.
  cbn [logs]. done.
Qed.

Lemma date_without_len_fails_after_saving_witness :
  ∃ f', process_item undated_video (lit "u") (Frame empty_disk None None 0 0) = (Ok tt, f')
        ∧ is_Some (docs (disk f') !! lit "v.docx") ∧ fallidos f' = 1.
Proof.
  destruct (date_without_len_fails_after_saving undated_video (lit "u")
              (Frame empty_disk None None 0 0) (sample_info (Some PNone))
              (lit "v") (lit "v.webm") []
              (sample_result (Some [{| seg_start := 0; seg_end := 2.5;
                                       seg_text := lit " hola " |}]))
              (word_document (sample_result (Some [{| seg_start := 0; seg_end := 2.5;
                                                      seg_text := lit " hola " |}])))
              {[ lit "v.webm" ]} {[ lit "v.webm"; lit "v.wav" ]})
    as (f' & e & r & Hrun & _ & Hdocs & _ & _ & _ & _ & _ & Hcount);
    [by vm_compute | done | done | by vm_compute | by vm_compute | by vm_compute | done
    | done |].
  exists f'. split; [exact Hrun|]. split; [|exact Hcount].
  rewrite Hdocs. change (safe_title (lit "v") ++ lit ".docx") with (lit "v.docx").
  rewrite lookup_insert_eq. by eexists.
Defined.




(** ** The conversion stage *)

(** X16. What a return of [convert_to_wav] tells: the metadata names a
    downloaded file, which is the first path returned, and has a text as
    title; the second path is the sanitized title followed by .wav and holds
    no reserved character; ffmpeg was run on these two paths and succeeded,
    and only the media files changed. *)
Theorem convert_to_wav_returns (E : collaborators) (info : Info) (w w' : world) (i o : str) :
  convert_to_wav E info w = (Ok (i, o), w') →
  ∃ title paths fs,
    info_requested_downloads info = Some (i :: paths) ∧
    info_title info = Some (PStr title) ∧
    o = safe_title title ++ lit ".wav" ∧
    Forall (λ c, c ∉ reserved) o ∧
    subprocess_run E (comando i o) w = (Ok tt, fs) ∧
    w' = set_files fs w.
Proof.
  unfold convert_to_wav, mbind, M_bind, lift_res, downloaded_filepath, getitem_title,
    re_sub_title, run_checked, mret, M_ret.
  destruct (info_requested_downloads info) as [[|path paths]|]; [discriminate| |discriminate].
  destruct (info_title info) as [[|title| |]|]; try discriminate.
  destruct (subprocess_run E _ w) as [[[]|e] fs] eqn:Hrun; [|discriminate].
  intros [= <- <- <-]. exists title, paths, fs. repeat split; try done.
  apply sanitized_name_has_no_reserved, (bool_decide_eq_true_1 _). by vm_compute.
Qed.

Lemma convert_to_wav_returns_witness :
  ∃ title, info_title (sample_info None) = Some (PStr title)
           ∧ lit "v.wav" = safe_title title ++ lit ".wav".
Proof.
  destruct (convert_to_wav_returns all_succeed (sample_info None) empty_disk
              (set_files {[ lit "v.wav" ]} empty_disk) (lit "v.webm") (lit "v.wav"))
    as (title & _ & _ & _ & Htitle & Ho & _); [by vm_compute|].
  by exists title.
Defined.

(** X17. Metadata without a downloaded file, or whose title is not a text,
    makes [convert_to_wav] raise before ffmpeg is run: the exception is the
    same whatever ffmpeg would do, the world is untouched, and the missing
    download is reported first. *)
Theorem convert_to_wav_needs_metadata (info : Info) :
  (∀ path paths title, info_requested_downloads info = Some (path :: paths) →
                       info_title info ≠ Some (PStr title)) →
  ∃ e, (∀ E w, convert_to_wav E info w = (Raise e, w)) ∧
       exn_class_of e ∈ [KeyError; IndexError; TypeError] ∧
       (exn_class_of e = TypeError ↔
          is_Some (info_requested_downloads info ≫= head) ∧ is_Some (info_title info)).
Proof.
  intros Hmeta.
  unfold convert_to_wav, mbind, M_bind, lift_res, downloaded_filepath, getitem_title,
    re_sub_title, run_checked, mret, M_ret.
  destruct (info_requested_downloads info) as [[|path paths]|] eqn:Hdl; simpl.
  - eexists. split; [done|]. simpl. split; [set_solver|].
    split; [done|]. by intros [[? [=]] _].
  - specialize (Hmeta path paths).
    destruct (info_title info) as [[|title| |]|] eqn:Htitle;
      try (eexists; split; [done|]; simpl; split; [set_solver|];
           split; [by (split; eexists) | done]).
    + by destruct (Hmeta title).
    + eexists. split; [done|]. simpl. split; [set_solver|].
      split; [done|]. by intros [_ [? [=]]].
  - eexists. split; [done|]. simpl. split; [set_solver|].
    split; [done|]. by intros [[? [=]] _].
Qed.

Lemma convert_to_wav_needs_metadata_witness :
  ∃ e, convert_to_wav ffmpeg_fails
         {| info_title := Some (PInt 7); info_requested_downloads := Some [lit "v.webm"];
            info_upload_date := None; info_duration := None; info_view_count := None;
            info_uploader := None |} empty_disk = (Raise e, empty_disk)
       ∧ exn_class_of e = TypeError.
Proof.
  destruct (convert_to_wav_needs_metadata
              {| info_title := Some (PInt 7); info_requested_downloads := Some [lit "v.webm"];
                 info_upload_date := None; info_duration := None; info_view_count := None;
                 info_uploader := None |})
    as (e & Hraise & _ & Hclass); [by intros path paths title _|].
  exists e. split; [apply Hraise|]. apply Hclass. split; by eexists.
Defined.

(** ** What the items share *)

Lemma blind_bind {A B} (m : M frame A) (k : A → M frame B) :
  blind m → (∀ a, blind (k a)) → blind (m ≫= k).
Proof.
  intros Hm Hk f g Hfg. unfold mbind, M_bind.
  destruct (Hm f g Hfg) as (Hr & Hs & Hx & Hy).
  destruct (m f) as [[a|e] f1], (m g) as [[a'|e'] g1]; simpl in *; try discriminate.
  - injection Hr as <-. destruct (Hk a f1 g1 Hs) as (Hr' & Hs' & Hx' & Hy').
    split; [done|]. split; [done|]. lia.
  - injection Hr as <-. done.
Qed.

Lemma blind_in_world {A} (m : M world A) : blind (in_world m).
Proof.
  intros f g (Hd & Hi & Ho). unfold in_world, same_store. rewrite Hd.
  destruct (m (disk g)) as [r w]. simpl. repeat split; try done; lia.
Qed.

Lemma blind_lift_res {A} (r : res A) : blind (lift_res r).
Proof. intros f g Hfg. unfold lift_res. simpl. repeat split; try apply Hfg; lia. Qed.

Lemma blind_set_artifacts (i o : option str) : blind (set_artifacts i o).
Proof.
  intros f g (Hd & _ & _). unfold set_artifacts, modify, same_store. simpl.
  repeat split; try done; lia.
Qed.

Lemma blind_try_except {A} (m : M frame A) (catches : exn → bool) (h : exn → M frame A) :
  blind m → (∀ e, blind (h e)) → blind (try_except m catches h).
Proof.
  intros Hm Hh f g Hfg. unfold try_except.
  destruct (Hm f g Hfg) as (Hr & Hs & Hx & Hy).
  destruct (m f) as [[a|e] f1], (m g) as [[a'|e'] g1]; simpl in *; try discriminate.
  - injection Hr as <-. done.
  - injection Hr as <-. destruct (catches e); [|done].
    destruct (Hh e f1 g1 Hs) as (Hr' & Hs' & Hx' & Hy').
    split; [done|]. split; [done|]. lia.
Qed.

Lemma blind_try_finally {A} (m : M frame A) (final : M frame unit) :
  blind m → blind final → blind (try_finally m final).
Proof.
  intros Hm Hfinal f g Hfg. unfold try_finally.
  destruct (Hm f g Hfg) as (Hr & Hs & Hx & Hy).
  destruct (m f) as [r f1], (m g) as [r' g1]; simpl in *. subst r'.
  destruct (Hfinal f1 g1 Hs) as (Hr' & Hs' & Hx' & Hy').
  destruct (final f1) as [[[]|e] f2], (final g1) as [[[]|e'] g2]; simpl in *;
    try discriminate.
  - split; [done|]. split; [done|]. lia.
  - injection Hr' as <-. split; [done|]. split; [done|]. lia.
Qed.

Lemma blind_item_body (E : collaborators) (url : str) : blind (item_body E url).
Proof.
  unfold item_body.
  repeat first
    [ apply blind_in_world | apply blind_lift_res | apply blind_set_artifacts
    | apply blind_bind; [|intros ?] | match goal with |- blind (let '(_, _) := ?p in _) =>
                                        destruct p end ].
  intros f g (Hd & Hi & Ho). unfold count_exitoso, modify, same_store. simpl.
  repeat split; try done; lia.
Qed.

(** One iteration looks at the disk only: the variables of the artifacts are
    reset when it begins, and the counters are only incremented. *)
Lemma process_item_reads_the_disk (E : collaborators) (url : str) (f g : frame) :
  disk f = disk g →
  (process_item E url f).1 = (process_item E url g).1 ∧
  disk (process_item E url f).2 = disk (process_item E url g).2 ∧
  exitosos (process_item E url f).2 + exitosos g
    = exitosos (process_item E url g).2 + exitosos f ∧
  fallidos (process_item E url f).2 + fallidos g
    = fallidos (process_item E url g).2 + fallidos f.
Proof.
  intros Hd.
  assert (Hblind : blind (try_finally
            (try_except (item_body E url) is_Exception
               (λ e, in_world (registro (inr e) url log_file);; count_fallido))
            (f ← get; in_world (clean E (input_file f) (output_file f))))).
  { apply blind_try_finally; [apply blind_try_except; [apply blind_item_body|]|].
    - intros e. apply blind_bind; [apply blind_in_world|]. intros _.
      intros f1 g1 (Hd1 & Hi1 & Ho1). unfold count_fallido, modify, same_store. simpl.
      repeat split; try done; lia.
    - intros f1 g1 (Hd1 & Hi1 & Ho1). unfold mbind, M_bind, get, in_world, same_store.
      rewrite Hd1, Hi1, Ho1. destruct (clean E _ _ _) as [r w]. simpl.
      repeat split; try done; lia. }
  unfold process_item. unfold mbind at 1 3 5 7 9 11. unfold M_bind, set_artifacts, modify.
  destruct (Hblind (Frame (disk f) None None (exitosos f) (fallidos f))
                   (Frame (disk g) None None (exitosos g) (fallidos g)))
    as (Hr & (Hs & _ & _) & Hx & Hy); [by split|].
  simpl in Hx, Hy. done.
Qed.

Lemma process_all_reads_the_disk (E : collaborators) (videos : list str) (f g : frame) :
  disk f = disk g →
  disk (process_all E videos f).2 = disk (process_all E videos g).2 ∧
  exitosos (process_all E videos f).2 + exitosos g
    = exitosos (process_all E videos g).2 + exitosos f ∧
  fallidos (process_all E videos f).2 + fallidos g
    = fallidos (process_all E videos g).2 + fallidos f.
Proof.
  revert f g. induction videos as [|url rest IH]; intros f g Hd.
  { cbn. split; [done|]. lia. }
  unfold process_all in *. cbn [for_each]. unfold mbind, M_bind.
  destruct (process_item_reads_the_disk E url f g Hd) as (Hr & Hd1 & Hx & Hy).
  destruct (process_item E url f) as [[[]|e] f1], (process_item E url g) as [[[]|e'] g1];
    simpl in *; try discriminate.
  - destruct (IH f1 g1 Hd1) as (Hd2 & Hx2 & Hy2). split; [done|]. lia.
  - done.
Qed.

Lemma process_all_app (E : collaborators) (a b : list str) (f : frame) :
  process_all E (a ++ b) f
  = match process_all E a f with
    | (Ok _, f1) => process_all E b f1
    | (Raise e, f1) => (Raise e, f1)
    end.
Proof.
  revert f. induction a as [|url a IH]; intros f; [done|].
  unfold process_all in *. cbn [for_each app]. unfold mbind, M_bind.
  destruct (process_item E url f) as [[[]|e] f1]; [apply IH | done].
Qed.

(** X18. A batch can be split: the script run on a list of videos and then
    run again on a second list leaves the disk that one run on the two lists
    in a row leaves, and the two summaries add up to the summary of that
    run.  Nothing but the disk passes from one item to the next. *)
Theorem batch_can_be_split (E : collaborators) (a b : list str) (w : world) :
  ∃ f1 f2 f12,
    process_all E a (Frame w None None 0 0) = (Ok tt, f1) ∧
    process_all E b (Frame (disk f1) None None 0 0) = (Ok tt, f2) ∧
    process_all E (a ++ b) (Frame w None None 0 0) = (Ok tt, f12) ∧
    disk f12 = disk f2 ∧
    exitosos f12 = exitosos f1 + exitosos f2 ∧
    fallidos f12 = fallidos f1 + fallidos f2.
Proof.
  destruct (process_all_outcome E a (Frame w None None 0 0)) as (ra & f1 & Ha & _).
  destruct (process_all_outcome E b (Frame (disk f1) None None 0 0)) as (rb & f2 & Hb & _).
  destruct (process_all_outcome E b f1) as (rb' & f12 & Hab & _).
  exists f1, f2, f12. split; [done|]. split; [done|].
  split; [by rewrite process_all_app, Ha|].
  destruct (process_all_reads_the_disk E b f1 (Frame (disk f1) None None 0 0) eq_refl)
    as (Hd & Hx & Hy).
  rewrite Hab, Hb in Hd, Hx, Hy. simpl in *. split; [done|]. lia.
Qed.

(** ** Timestamps tell the seconds apart *)

Lemma numeral_value_str_of_int (n : Z) : numeral_value (str_of_int n) = Some n.
Proof.
  unfold numeral_value, str_of_int, lit.
  assert (Hback : ∀ l : list ascii, ascii_of_N <$> (N_of_ascii <$> l) = l).
  { induction l as [|c l IH]; [done|]. cbn. by rewrite ascii_N_embedding, IH. }
  rewrite Hback, string_of_list_ascii_of_string.
  rewrite NilZero.isi.
  - simpl. by rewrite DecimalZ.of_to.
  - intros Hnil. pose proof (DecimalZ.of_to n) as Hn. rewrite Hnil in Hn.
    simpl in Hn. subst n. discriminate.
  - intros Hnil. pose proof (DecimalZ.of_to n) as Hn. rewrite Hnil in Hn.
    simpl in Hn. subst n. discriminate.
Qed.

Lemma numeral_value_format_02d (n : Z) : (0 <= n)%Z → numeral_value (format_02d n) = Some n.
Proof.
  intros Hn. destruct (Z.lt_ge_cases n 10) as [Hsmall|Hbig].
  - assert (Hall : forallb (λ k, bool_decide
              (numeral_value (format_02d (Z.of_nat k)) = Some (Z.of_nat k))) (seq 0 10) = true)
      by (vm_compute; reflexivity).
    rewrite forallb_forall in Hall.
    specialize (Hall (Z.to_nat n)). rewrite Z2Nat.id in Hall by lia.
    apply bool_decide_eq_true_1 in Hall; [done|]. apply in_seq. lia.
  - unfold format_02d.
    destruct (Z.ltb_spec n 0); [lia|]. destruct (Z.ltb_spec n 10); [lia|].
    apply numeral_value_str_of_int.
Qed.

Lemma two_digits_inj (a b : Z) :
  (0 <= a < 100)%Z → (0 <= b < 100)%Z → two_digits a = two_digits b → a = b.
Proof.
  intros Ha Hb. unfold two_digits, digit. intros [= Htens Hunits].
  apply Z2N.inj in Htens, Hunits; Z.div_mod_to_equations; lia.
Qed.

(** The timestamp in terms of the whole seconds, for a number that is not
    negative and on which the arithmetic is exact. *)
Lemma format_timestamp_of_whole (seconds : number) :
  (0 <= value seconds)%Q → exact seconds →
  format_timestamp seconds
  = (if (0 <? whole seconds / 3600)%Z
     then format_02d (whole seconds / 3600) ++ [58%N] else [])
    ++ two_digits (whole seconds mod 3600 / 60) ++ [58%N]
    ++ two_digits (whole seconds mod 60).
Proof.
  intros Hpos Hexact. pose proof (Qfloor_nonneg _ Hpos) as Hw. fold (whole seconds) in Hw.
  unfold format_timestamp.
  destruct (clock_fields seconds Hpos Hexact) as (-> & -> & ->).
  pose proof (Z.mod_pos_bound (whole seconds) 60 ltac:(lia)).
  pose proof (Z.mod_pos_bound (whole seconds) 3600 ltac:(lia)).
  rewrite (format_02d_below_100 (whole seconds mod 60)) by lia.
  rewrite (format_02d_below_100 (whole seconds mod 3600 / 60))
    by (Z.div_mod_to_equations; lia).
  change (lit ":") with [58%N].
  destruct (0 <? whole seconds / 3600)%Z; [|done]. by rewrite <- !app_assoc.
Qed.

(** X19. On numbers that are not negative and on which the arithmetic is
    exact (the ints, and the floats below [2 ^ 53]) the timestamp loses the
    fraction of the second and nothing else: two times get the same
    timestamp exactly when their whole seconds are the same, whatever the
    number of hours. *)
Theorem format_timestamp_tells_seconds_apart (s t : number) :
  (0 <= value s)%Q → (0 <= value t)%Q → exact s → exact t →
  format_timestamp s = format_timestamp t ↔ whole s = whole t.
Proof.
  intros Hs Ht Hes Het.
  pose proof (Qfloor_nonneg _ Hs) as Hws. fold (whole s) in Hws.
  pose proof (Qfloor_nonneg _ Ht) as Hwt. fold (whole t) in Hwt.
  rewrite !format_timestamp_of_whole by done.
  split; [|by intros ->].
  set (a := whole s) in *. set (b := whole t) in *. intros Heq.
  apply app_inj_2 in Heq as [Hhours Hrest]; [|done].
  injection Hrest as Hm1 Hm2 Hs1 Hs2.
  assert (Hminutes : (a mod 3600 / 60 = b mod 3600 / 60)%Z).
  { apply two_digits_inj; [Z.div_mod_to_equations; lia ..|]. unfold two_digits. congruence. }
  assert (Hsecs : (a mod 60 = b mod 60)%Z).
  { apply two_digits_inj; [Z.div_mod_to_equations; lia ..|]. unfold two_digits. congruence. }
  assert (Hh : (a / 3600 = b / 3600)%Z).
  { destruct (Z.ltb_spec 0 (a / 3600)) as [Ha|Ha], (Z.ltb_spec 0 (b / 3600)) as [Hb|Hb].
    - apply app_inj_2 in Hhours as [Hhours _]; [|done].
      apply (f_equal numeral_value) in Hhours.
      rewrite !numeral_value_format_02d in Hhours by lia. congruence.
    - apply (f_equal length) in Hhours. rewrite length_app in Hhours. simpl in Hhours. lia.
    - apply (f_equal length) in Hhours. rewrite length_app in Hhours. simpl in Hhours. lia.
    - Z.div_mod_to_equations; lia. }
  Z.div_mod_to_equations; lia.
Qed.

Lemma format_timestamp_tells_seconds_apart_witness :
  format_timestamp (Float 3725.75) = format_timestamp (Int 3725)
  ∧ format_timestamp (Float 3725) ≠ format_timestamp (Float 125).
Proof.
  split.
  - by apply (format_timestamp_tells_seconds_apart (Float 3725.75) (Int 3725)).
  - intros Heq.
    by apply (format_timestamp_tells_seconds_apart (Float 3725) (Float 125)) in Heq.
Defined.
